(** * Observer pattern library (observer.h): containers, matcher and Source

    A shallow embedding of [src/src/observer.h].

    - A listener object is identified by a value of type [Obj]; a raw pointer
      [T_Listener*] and a [std::shared_ptr<T_Listener>] are both an
      [option Obj], [None] being the null pointer.
    - A [std::weak_ptr] is either empty or refers to an object; [lock()]
      consults the liveness of the object.
    - [std::vector] is a [list]; the two algorithms the containers call on it,
      [std::remove_if] and the one-iterator [vector::erase], are embedded as
      the standard library runs them.
    - A call either returns, or dies in [assert], or has no behaviour defined
      by the language, or is ill-formed: the program that contains it does
      not compile ([result]).
    - A notification callback works on an abstract [World] and may raise; the
      sequence of objects whose member function was entered is recorded in
      [calls]. *)

From Stdlib Require Import List Bool Arith Lia Permutation.
From Stdlib Require String Ascii ZArith DecimalString.
Import ListNotations.

Set Implicit Arguments.

(** ** Outcome of a call *)

Inductive result (A : Type) : Type :=
| Ok (a : A)            (* the call returned *)
| AssertionFailed       (* [assert(...)] aborted the program *)
| Undefined             (* the language gives the call no behaviour *)
| IllFormed.            (* instantiating the call is a compile error *)

Arguments Ok {A} a.
Arguments AssertionFailed {A}.
Arguments Undefined {A}.
Arguments IllFormed {A}.

Definition bind {A B : Type} (r : result A) (k : A -> result B) : result B :=
  match r with
  | Ok a => k a
  | AssertionFailed => AssertionFailed
  | Undefined => Undefined
  | IllFormed => IllFormed
  end.

Notation "x <- r ;; k" := (bind r (fun x => k))
  (at level 61, r at next level, right associativity).

(** ** The standard-library pieces the containers use

    [std::remove_if] is embedded as libstdc++ and libc++ run it: a
    [find_if] for the first match, then one pass that move-assigns every
    later element to keep onto the next free position.  The standard only
    fixes the elements in front of the returned iterator; what stands
    behind it is what these moves leave. *)

Module Std.

Section Vector.
Variable A : Type.

(** What the element at [first] holds after the move assignment
    [result[0] = std::move(first[0])]: a raw pointer keeps its value, a
    [weak_ptr] becomes empty. *)
Variable moved_from : A -> A.

(** [v[i] = x] for an index inside the vector. *)
Fixpoint assign (i : nat) (x : A) (v : list A) : list A :=
  match v, i with
  | [], _ => []
  | _ :: r, 0 => x :: r
  | y :: r, S j => y :: assign j x r
  end.

(** [std::find_if(begin, end, pred) - begin]. *)
Fixpoint find_if (pred : A -> bool) (v : list A) : nat :=
  match v with
  | [] => 0
  | x :: r => if pred x then 0 else S (find_if pred r)
  end.

(** The loop of [std::remove_if] after the first match:
<<
    for (; first != last; ++first)
      if (!pred(first[0])) { result[0] = std::move(first[0]); ++result; }
    return result;
>>
    [n] is [last - first]. *)
Fixpoint remove_if_loop (pred : A -> bool) (n : nat) (v : list A)
         (result first : nat) : list A * nat :=
  match n with
  | 0 => (v, result)
  | S n' =>
      match nth_error v first with
      | None => (v, result)
      | Some x =>
          if pred x
          then remove_if_loop pred n' v result (S first)
          else remove_if_loop pred n'
                 (assign first (moved_from x) (assign result x v))
                 (S result) (S first)
      end
  end.

(** [std::remove_if(v.begin(), v.end(), pred)]: the vector afterwards and
    the returned iterator, as an index. *)
Definition remove_if (pred : A -> bool) (v : list A) : list A * nat :=
  let first := find_if pred v in
  if first =? length v then (v, first)
  else remove_if_loop pred (length v - S first) v first (S first).

(** Removal of the element at index [pos]. *)
Fixpoint erase_at (pos : nat) (v : list A) : list A :=
  match v, pos with
  | [], _ => []
  | _ :: r, 0 => r
  | y :: r, S j => y :: erase_at j r
  end.

(** [v.erase(pos)] with ONE iterator: erases the single element [pos]
    points to, which has to be dereferenceable; [v.erase(v.end())] is
    undefined. *)
Definition erase (pos : nat) (v : list A) : result (list A) :=
  if pos <? length v then Ok (erase_at pos v) else Undefined.

End Vector.

End Std.

(** ** Pointers *)

Section Pointers.
Variable Obj : Type.
Variable Obj_eq_dec : forall a b : Obj, {a = b} + {a <> b}.

(** [T*] and [std::shared_ptr<T>]: [None] is null. *)
Definition ptr := option Obj.

Definition ptr_eqb (p q : ptr) : bool :=
  match p, q with
  | None, None => true
  | Some a, Some b => if Obj_eq_dec a b then true else false
  | _, _ => false
  end.

(** [std::weak_ptr<T>]. *)
Inductive weak_ptr : Type :=
| WEmpty
| WRef (o : Obj).

(** [w.lock()]: the owning pointer, null when the object is gone. *)
Definition lock (live : Obj -> bool) (w : weak_ptr) : ptr :=
  match w with
  | WEmpty => None
  | WRef o => if live o then Some o else None
  end.

(** [p == nullptr], the test [assert(p)] and [if (auto p = ...)] make. *)
Definition is_null (p : ptr) : bool :=
  match p with
  | None => true
  | Some _ => false
  end.

(** Conversion [shared_ptr -> weak_ptr] done by [push_back]. *)
Definition to_weak (p : ptr) : weak_ptr :=
  match p with
  | None => WEmpty
  | Some o => WRef o
  end.

(** The function an algorithm gets when it writes [pred(x)] for a [pred]
    that is the pointer [p]: a pointer to an object is not callable, so
    there is none and the instantiation is ill-formed. *)
Definition call_operator (A : Type) (p : ptr) : result (A -> bool) :=
  IllFormed.

(** The member function [std::shared_ptr<T>::empty]: the class template
    declares no member of that name, so an expression [p.empty()] is
    ill-formed. *)
Definition shared_ptr_empty : result (ptr -> bool) := IllFormed.
End Pointers.

Arguments WEmpty {Obj}.
Arguments ptr_eqb {Obj} Obj_eq_dec p q.
Arguments call_operator {Obj} A p.

(** ** Notification callbacks

    [notify(fn, args...)] enters the member function [fn] of one listener
    after the other.  What the body does is the application's business: it
    transforms a [World] (which also holds the heap, hence the liveness of
    every listener object) and either returns or raises. *)

Section Notification.
Variables Obj World Exn : Type.

Record exec : Type := Exec { world : World; calls : list Obj }.

Definition callback : Type := Obj -> World -> World * option Exn.

(** [(l->*fn)(std::forward<Fn_Args>(args)...)]. *)
Definition invoke (fn : callback) (l : Obj) (st : exec) : exec * option Exn :=
  let (w, r) := fn l (world st) in
  (Exec w (calls st ++ [l]), r).

End Notification.

Arguments Exec {Obj World} world calls.
Arguments world {Obj World} e.
Arguments calls {Obj World} e.

(** ** RawContainer<T_Listener> (observer.h, lines 30-71)

    [m_listeners] is a [std::vector<T_Listener*>].  Every element went
    through [assert(listener)], so an element is an [Obj].  The container
    never looks at the object's lifetime: a listener destroyed while
    registered is outside the model, as it is outside the language. *)

Module RawContainer.
Section Def.
Variable Obj : Type.
Variable Obj_eq_dec : forall a b : Obj, {a = b} + {a <> b}.
Variables World Exn : Type.

Definition t : Type := list Obj.

Definition empty : t := [].

(** Lines 40-44. *)
Definition attach (listener : ptr Obj) (m_listeners : t) : result t :=
  match listener with
  | None => AssertionFailed
  | Some l => Ok (m_listeners ++ [l])
  end.

(** Lines 50-53:
    [m_listeners.erase(std::remove_if(begin, end, listener))].
    The third argument of [remove_if], the predicate it calls on the
    elements, is [listener] itself; [erase] receives one iterator. *)
Definition detach (listener : ptr Obj) (m_listeners : t) : result t :=
  pred <- call_operator Obj listener ;;
  let (v, it) := Std.remove_if (fun x => x) pred m_listeners in
  Std.erase it v.

(** Lines 65-66: the range-for over [m_listeners]; a raising callback
    leaves the loop. *)
Fixpoint notify_loop (ls : list Obj) (fn : callback Obj World Exn)
         (st : exec Obj World) : exec Obj World * option Exn :=
  match ls with
  | [] => (st, None)
  | l :: rest =>
      match invoke fn l st with
      | (st', Some e) => (st', Some e)
      | (st', None) => notify_loop rest fn st'
      end
  end.

(** Lines 62-67.  The container after the call is part of the result. *)
Definition notify (fn : callback Obj World Exn) (st : exec Obj World)
           (m_listeners : t) : t * (exec Obj World * option Exn) :=
  (m_listeners, notify_loop m_listeners fn st).

End Def.
End RawContainer.

(** ** SmartContainer<T_Listener> (observer.h, lines 79-128)

    [m_listeners] is a [std::vector<std::weak_ptr<T_Listener>>]. *)

Module SmartContainer.
Section Def.
Variable Obj : Type.
Variable Obj_eq_dec : forall a b : Obj, {a = b} + {a <> b}.
Variables World Exn : Type.

(** Which objects the heap of a world still holds. *)
Variable live : World -> Obj -> bool.

Definition t : Type := list (weak_ptr Obj).

Definition empty : t := [].

(** Lines 90-94. *)
Definition attach (listener : ptr Obj) (m_listeners : t) : result t :=
  if is_null listener then AssertionFailed
  else Ok (m_listeners ++ [to_weak listener]).

(** The lambda of lines 104-108, instantiated for the elements of
    [m_listeners]: its body is [ptr == listener || ptr.empty()] with
    [ptr = weakListener.lock()]. *)
Definition detach_pred (w : World) (listener : ptr Obj)
  : result (weak_ptr Obj -> bool) :=
  empty <- shared_ptr_empty Obj ;;
  Ok (fun weakListener =>
        let ptr := lock (live w) weakListener in
        ptr_eqb Obj_eq_dec ptr listener || empty ptr).

(** Lines 100-109.  [erase] receives one iterator. *)
Definition detach (w : World) (listener : ptr Obj) (m_listeners : t)
  : result t :=
  pred <- detach_pred w listener ;;
  let (v, it) := Std.remove_if (fun _ => WEmpty) pred m_listeners in
  Std.erase it v.

(** Lines 121-123. *)
Fixpoint notify_loop (ls : list (weak_ptr Obj)) (fn : callback Obj World Exn)
         (st : exec Obj World) : exec Obj World * option Exn :=
  match ls with
  | [] => (st, None)
  | weakListener :: rest =>
      match lock (live (world st)) weakListener with
      | Some listener =>
          match invoke fn listener st with
          | (st', Some e) => (st', Some e)
          | (st', None) => notify_loop rest fn st'
          end
      | None => notify_loop rest fn st
      end
  end.

(** Lines 118-124. *)
Definition notify (fn : callback Obj World Exn) (st : exec Obj World)
           (m_listeners : t) : t * (exec Obj World * option Exn) :=
  (m_listeners, notify_loop m_listeners fn st).

End Def.
End SmartContainer.

(** ** detail::contains, detail::cond and Source (observer.h, lines 131-263)

    [Source<T_Container, T_Listeners...>] derives from one
    [T_Container<T>] per [T] of [T_Listeners]; its state is that family of
    base subobjects, a function from the capability to its container.  Only
    the subobjects of [T_Listeners] exist; the functions below never touch
    another one. *)

Module Source.
Section Def.
Variable Capability : Type.
Variable Capability_eq_dec : forall a b : Capability, {a = b} + {a <> b}.

(** The container template and the handle its [attach]/[detach] take. *)
Variable T_Container : Type.
Variable Handle : Type.
Variable Container_attach : Handle -> T_Container -> result T_Container.
Variable Container_detach : Handle -> T_Container -> result T_Container.

Variable T_Listeners : list Capability.

Definition t : Type := Capability -> T_Container.

(** [std::disjunction<std::is_same<T, Args>...>::value], lines 137-140. *)
Fixpoint contains (T : Capability) (Args : list Capability) : bool :=
  match Args with
  | [] => false
  | A :: rest => if Capability_eq_dec T A then true else contains T rest
  end.

(** Assignment to the base subobject [T_Container<T>] of [s]. *)
Definition set_base (T : Capability) (c : T_Container) (s : t) : t :=
  fun T' => if Capability_eq_dec T' T then c else s T'.

(** [cond<Contains, T_Container<T>>::attach(s, l)], lines 146-170: the
    primary template forwards to the base subobject, the [false]
    specialization has an empty body. *)
Definition cond_attach (Contains : bool) (T : Capability) (l : Handle)
           (s : t) : result t :=
  if Contains
  then c <- Container_attach l (s T) ;; Ok (set_base T c s)
  else Ok s.

Definition cond_detach (Contains : bool) (T : Capability) (l : Handle)
           (s : t) : result t :=
  if Contains
  then c <- Container_detach l (s T) ;; Ok (set_base T c s)
  else Ok s.

(** Lines 200-205 and 213-218: the fold over the comma operator,
    [(cond<contains<Args, T_Listeners...>::value, T_Container<Args>>
       ::attach(this, listener), ...)], runs the operands left to right. *)
Fixpoint attach (Args : list Capability) (listener : Handle) (s : t)
  : result t :=
  match Args with
  | [] => Ok s
  | A :: rest =>
      s' <- cond_attach (contains A T_Listeners) A listener s ;;
      attach rest listener s'
  end.

(** Lines 228-233 and 236-241. *)
Fixpoint detach (Args : list Capability) (listener : Handle) (s : t)
  : result t :=
  match Args with
  | [] => Ok s
  | A :: rest =>
      s' <- cond_detach (contains A T_Listeners) A listener s ;;
      detach rest listener s'
  end.

(** The classes a [std::shared_ptr] given to [attach] or [detach] can point
    to: [Listener<Args...>] itself (lines 16-22), or a class derived from a
    listener class, as the observers of main.cpp, lines 49 and 57-58. *)
Inductive listener_class : Type :=
| Listener (Args : list Capability)
| Derived (base : listener_class).

(** [typename T::ListenerType].  Line 19 declares the name in
    [Listener<T_Listeners...>], as that class; a derived class finds the
    declaration of its base. *)
Fixpoint ListenerType (T : listener_class) : listener_class :=
  match T with
  | Listener Args => Listener Args
  | Derived base => ListenerType base
  end.

(** A [std::shared_ptr<T>]: the class [T] of its type and the pointer it
    holds. *)
Record shared_ptr : Type := { element_type : listener_class; get : Handle }.

(** [std::static_pointer_cast<U>(r)]: a [shared_ptr<U>] to the same
    object, owned through the same control block. *)
Definition static_pointer_cast (U : listener_class) (r : shared_ptr)
  : shared_ptr :=
  {| element_type := U; get := get r |}.

(** Deduction of [Args...] for the parameter
    [const std::shared_ptr<Listener<Args...>>&] of lines 214 and 237 from
    an argument of type [std::shared_ptr<U>]: it succeeds for
    [U = Listener<Args...>] only, a [shared_ptr] to a derived class being
    an unrelated type. *)
Definition deduce_Args (U : listener_class) : option (list Capability) :=
  match U with
  | Listener Args => Some Args
  | Derived _ => None
  end.

(** Lines 221-225: [attach(std::static_pointer_cast<typename
    T::ListenerType>(listener))].  The inner call is resolved like any
    call with a [shared_ptr]; were the cast pointer again one for which
    [Args...] cannot be deduced, the template would instantiate itself
    without end. *)
Definition attach_convenience (listener : shared_ptr) (s : t) : result t :=
  let p := static_pointer_cast (ListenerType (element_type listener))
             listener in
  match deduce_Args (element_type p) with
  | Some Args => attach Args (get p) s
  | None => IllFormed
  end.

(** Lines 244-248. *)
Definition detach_convenience (listener : shared_ptr) (s : t) : result t :=
  let p := static_pointer_cast (ListenerType (element_type listener))
             listener in
  match deduce_Args (element_type p) with
  | Some Args => detach Args (get p) s
  | None => IllFormed
  end.

(** A call [attach(listener)] with a [std::shared_ptr]: the overload of
    lines 213-218 is viable when [Args...] can be deduced and is then the
    more specialized one; otherwise the call goes to lines 221-225. *)
Definition attach_shared (listener : shared_ptr) (s : t) : result t :=
  match deduce_Args (element_type listener) with
  | Some Args => attach Args (get listener) s
  | None => attach_convenience listener s
  end.

(** A call [detach(listener)] with a [std::shared_ptr], lines 236-248. *)
Definition detach_shared (listener : shared_ptr) (s : t) : result t :=
  match deduce_Args (element_type listener) with
  | Some Args => detach Args (get listener) s
  | None => detach_convenience listener s
  end.

End Def.
End Source.

(** [RawSource<T_Listeners...>], line 267. *)

Module RawSource.
Section Def.
Variable Capability : Type.
Variable Capability_eq_dec : forall a b : Capability, {a = b} + {a <> b}.
Variable Obj : Type.
Variable Obj_eq_dec : forall a b : Obj, {a = b} + {a <> b}.
Variables World Exn : Type.
Variable T_Listeners : list Capability.

Definition t : Type := Source.t Capability (RawContainer.t Obj).

(** A freshly constructed source. *)
Definition empty : t := fun _ => RawContainer.empty Obj.

Definition attach (Args : list Capability) (listener : ptr Obj) (s : t)
  : result t :=
  Source.attach Capability_eq_dec (@RawContainer.attach Obj)
    T_Listeners Args listener s.

Definition detach (Args : list Capability) (listener : ptr Obj) (s : t)
  : result t :=
  Source.detach Capability_eq_dec (@RawContainer.detach Obj)
    T_Listeners Args listener s.

(** Lines 256-262: [T_Container<T>::notify(fn, args...)].  The call
    compiles only for a [T] of [T_Listeners]. *)
Definition notify (T : Capability) (fn : callback Obj World Exn)
           (st : exec Obj World) (s : t) : t * (exec Obj World * option Exn) :=
  let (c, r) := RawContainer.notify fn st (s T) in
  (Source.set_base Capability_eq_dec T c s, r).

End Def.
End RawSource.

(** [SmartSource<T_Listeners...>], line 271. *)

Module SmartSource.
Section Def.
Variable Capability : Type.
Variable Capability_eq_dec : forall a b : Capability, {a = b} + {a <> b}.
Variable Obj : Type.
Variable Obj_eq_dec : forall a b : Obj, {a = b} + {a <> b}.
Variables World Exn : Type.
Variable live : World -> Obj -> bool.
Variable T_Listeners : list Capability.

Definition t : Type := Source.t Capability (SmartContainer.t Obj).

Definition empty : t := fun _ => SmartContainer.empty Obj.

Definition attach (Args : list Capability) (listener : ptr Obj) (s : t)
  : result t :=
  Source.attach Capability_eq_dec (@SmartContainer.attach Obj)
    T_Listeners Args listener s.

Definition detach (w : World) (Args : list Capability) (listener : ptr Obj)
           (s : t) : result t :=
  Source.detach Capability_eq_dec (SmartContainer.detach Obj_eq_dec live w)
    T_Listeners Args listener s.

(** [src.attach(listener)] and [src.detach(listener)] with a
    [std::shared_ptr] of any listener class. *)
Definition attach_shared
           (listener : Source.shared_ptr Capability (ptr Obj)) (s : t)
  : result t :=
  Source.attach_shared Capability_eq_dec (@SmartContainer.attach Obj)
    T_Listeners listener s.

Definition detach_shared (w : World)
           (listener : Source.shared_ptr Capability (ptr Obj)) (s : t)
  : result t :=
  Source.detach_shared Capability_eq_dec
    (SmartContainer.detach Obj_eq_dec live w) T_Listeners listener s.

Definition notify (T : Capability) (fn : callback Obj World Exn)
           (st : exec Obj World) (s : t) : t * (exec Obj World * option Exn) :=
  let (c, r) := SmartContainer.notify live fn st (s T) in
  (Source.set_base Capability_eq_dec T c s, r).

End Def.
End SmartSource.

(** ** Vocabulary of the statements *)

(** A sequence of calls, each on the state the previous one left. *)
Fixpoint run_calls {S Call : Type} (step : Call -> S -> result S)
         (cs : list Call) (s : S) : result S :=
  match cs with
  | [] => Ok s
  | c :: rest => s' <- step c s ;; run_calls step rest s'
  end.

(** The objects a list of weak handles resolves to, in order, on a heap
    that does not change. *)
Fixpoint resolved {Obj : Type} (live : Obj -> bool) (ms : list (weak_ptr Obj))
  : list Obj :=
  match ms with
  | [] => []
  | w :: rest =>
      match lock live w with
      | Some o => o :: resolved live rest
      | None => resolved live rest
      end
  end.



(** A callback that neither destroys nor creates listener objects. *)
Definition keeps_heap {Obj World Exn : Type} (live : World -> Obj -> bool)
           (fn : callback Obj World Exn) : Prop :=
  forall o w x, live (fst (fn o w)) x = live w x.



(** ** The demonstration program (main.cpp) as concrete data *)

Module Demo.

Inductive Capability : Type := MouseListener | KeyboardListener.

Definition Capability_eq_dec (a b : Capability) : {a = b} + {a <> b}.
Proof. decide equality. Defined.

(** Listener objects are numbered; a world is the list of the objects
    destroyed so far. *)
Definition Obj : Type := nat.
Definition World : Type := list nat.
Definition Exn : Type := nat.

Definition live (w : World) (o : Obj) : bool := negb (existsb (Nat.eqb o) w).

Definition mouseOnlyObserver : Obj := 1.
Definition mouseAndKeyboardObserver : Obj := 2.

(** The classes derived from [Listener<MouseListener>] and from
    [Listener<MouseListener, KeyboardListener>], main.cpp lines 49 and
    57-58. *)
Definition MouseOnlyObserver : Source.listener_class Capability :=
  Source.Derived (Source.Listener [MouseListener]).
Definition MouseAndKeyboardObserver : Source.listener_class Capability :=
  Source.Derived (Source.Listener [MouseListener; KeyboardListener]).

(** A callback that prints and returns, as all of main.cpp do. *)
Definition onLeftMouseButton : callback Obj World Exn :=
  fun _ w => (w, None).

(** A callback that raises [e] in listener [o] and returns elsewhere. *)
Definition raising_in (o : Obj) (e : Exn) : callback Obj World Exn :=
  fun l w => (w, if Nat.eqb l o then Some e else None).

Definition start : exec Obj World := Exec [] [].

End Demo.

(** ** The demonstration program (main.cpp)

    The console is the list of the texts written so far, one per output
    statement.  A world also knows the class every object was created with
    and which objects are destroyed.  Nothing in main.cpp raises. *)

Module Main.
Import String ZArith.
Local Open Scope string_scope.

Definition Obj : Type := nat.
Definition Exn : Type := unit.

(** The two listener classes, main.cpp lines 49-69. *)
Inductive observer_class : Type :=
| MouseOnlyObserver
| MouseAndKeyboardObserver.

(** The [Listener<...>] base of each class, lines 49 and 58. *)
Definition ListenerType (C : observer_class) : list Demo.Capability :=
  match C with
  | MouseOnlyObserver => [Demo.MouseListener]
  | MouseAndKeyboardObserver => [Demo.MouseListener; Demo.KeyboardListener]
  end.

Record World : Type := {
  cout : list string;
  class_of : Obj -> observer_class;
  destroyed : list Obj
}.

Definition live (w : World) (o : Obj) : bool :=
  negb (existsb (Nat.eqb o) (destroyed w)).

(** One output statement. *)
Definition print (text : string) (w : World) : World :=
  {| cout := cout w ++ [text];
     class_of := class_of w;
     destroyed := destroyed w |}.

Definition say (text : string) (st : exec Obj World) : exec Obj World :=
  Exec (print text (world st)) (calls st).

(** The end of an object's lifetime. *)
Definition destroy (o : Obj) (w : World) : World :=
  {| cout := cout w;
     class_of := class_of w;
     destroyed := o :: destroyed w |}.

Definition endl : string := String (Ascii.ascii_of_nat 10) EmptyString.

(** [std::cout << n] for an [int]. *)
Definition int_to_string (n : Z) : string :=
  DecimalString.NilZero.string_of_int (Z.to_int n).

(** Lines 51-54. *)
Definition MouseOnlyObserver_onLeftMouseButton (a b : Z) : string :=
  " - MouseOnlyObserver::onLeftMouseButton(" ++ int_to_string a ++ ", "
    ++ int_to_string b ++ ") received" ++ endl.

(** Lines 60-63. *)
Definition MouseAndKeyboardObserver_onLeftMouseButton (a b : Z) : string :=
  " - MouseAndKeyboardObserver::onLeftMouseButton(" ++ int_to_string a ++ ", "
    ++ int_to_string b ++ ") received" ++ endl.

(** Lines 65-68. *)
Definition MouseAndKeyboardObserver_onKeyPressed (k : Z) : string :=
  " - MouseAndKeyboardObserver::onKeyPressed(" ++ int_to_string k
    ++ ") received" ++ endl.

(** What the virtual call [l->onLeftMouseButton(a, b)] writes: the override
    of the object's class. *)
Definition onLeftMouseButton_text (C : observer_class) (a b : Z) : string :=
  match C with
  | MouseOnlyObserver => MouseOnlyObserver_onLeftMouseButton a b
  | MouseAndKeyboardObserver => MouseAndKeyboardObserver_onLeftMouseButton a b
  end.

(** [&MouseListener::onLeftMouseButton] applied to [(a, b)]. *)
Definition onLeftMouseButton (a b : Z) : callback Obj World Exn :=
  fun l w => (print (onLeftMouseButton_text (class_of w l) a b) w, None).

(** [&KeyboardListener::onKeyPressed] applied to [k].  A
    [MouseOnlyObserver] is not a [KeyboardListener]: no
    [KeyboardListener*] points to one, and the branch is there only to make
    the function total. *)
Definition onKeyPressed (k : Z) : callback Obj World Exn :=
  fun l w =>
    match class_of w l with
    | MouseAndKeyboardObserver =>
        (print (MouseAndKeyboardObserver_onKeyPressed k) w, None)
    | MouseOnlyObserver => (w, None)
    end.

(** The headings the test methods write, lines 22, 24, 34 and 44. *)
Definition mouse_heading : string :=
  "notification MouseListener::onLeftMouseButton" ++ endl.
Definition keyboard_heading : string :=
  "notification KeyboardListener::onKeyPressed" ++ endl.

(** [MouseAndKeyboardSource::test], lines 20-26, on a
    [RawSource<MouseListener, KeyboardListener>]. *)
Definition MouseAndKeyboardSource_test
           (st : exec Obj World) (s : RawSource.t Demo.Capability Obj)
  : RawSource.t Demo.Capability Obj * (exec Obj World * option Exn) :=
  let st := say mouse_heading st in
  match RawSource.notify Demo.Capability_eq_dec Demo.MouseListener
          (onLeftMouseButton 25 48) st s with
  | (s, (st, Some e)) => (s, (st, Some e))
  | (s, (st, None)) =>
      let st :=
        say keyboard_heading st in
      RawSource.notify Demo.Capability_eq_dec Demo.KeyboardListener
        (onKeyPressed 65) st s
  end.

(** [MouseOnlySource::test], lines 32-36, on a [RawSource<MouseListener>]. *)
Definition MouseOnlySource_test
           (st : exec Obj World) (s : RawSource.t Demo.Capability Obj)
  : RawSource.t Demo.Capability Obj * (exec Obj World * option Exn) :=
  let st := say mouse_heading st in
  RawSource.notify Demo.Capability_eq_dec Demo.MouseListener
    (onLeftMouseButton 95 105) st s.

(** [SmartMouseOnlySource::test], lines 42-46, on a
    [SmartSource<MouseListener>]. *)
Definition SmartMouseOnlySource_test
           (st : exec Obj World) (s : SmartSource.t Demo.Capability Obj)
  : SmartSource.t Demo.Capability Obj * (exec Obj World * option Exn) :=
  let st := say mouse_heading st in
  SmartSource.notify Demo.Capability_eq_dec live Demo.MouseListener
    (onLeftMouseButton 27 163) st s.

(** [src.attach(&observer)] and [src.attach(observer)] as main.cpp writes
    them: the pack [Args] is the one of the class of the object. *)
Definition raw_attach (T_Listeners : list Demo.Capability) (w : World)
           (o : Obj) (s : RawSource.t Demo.Capability Obj)
  : result (RawSource.t Demo.Capability Obj) :=
  RawSource.attach Demo.Capability_eq_dec T_Listeners
    (ListenerType (class_of w o)) (Some o) s.

Definition smart_attach (T_Listeners : list Demo.Capability) (w : World)
           (o : Obj) (s : SmartSource.t Demo.Capability Obj)
  : result (SmartSource.t Demo.Capability Obj) :=
  SmartSource.attach_shared Demo.Capability_eq_dec T_Listeners
    {| Source.element_type :=
         Source.Derived (Source.Listener (ListenerType (class_of w o)));
       Source.get := Some o |} s.

(** The objects of [main]: [mouseOnlyObserver] and
    [mouseAndKeyboardObserver] of lines 79-81, and the [observer] of line
    111.  At the start nothing is written and nothing destroyed. *)
Definition mouseOnlyObserver : Obj := 1.
Definition mouseAndKeyboardObserver : Obj := 2.
Definition observer : Obj := 5.

Definition start : exec Obj World :=
  Exec {| cout := [];
          class_of := fun o => if Nat.eqb o mouseAndKeyboardObserver
                               then MouseAndKeyboardObserver
                               else MouseOnlyObserver;
          destroyed := [] |} [].

End Main.

(** * Properties *)

(** ** The notification loops *)

Section RawNotify.
Variable Obj : Type.
Variables World Exn : Type.
Implicit Types (fn : callback Obj World Exn) (st : exec Obj World).

Lemma invoke_calls fn l st :
  calls (fst (invoke fn l st)) = calls st ++ [l].
Proof. unfold invoke. destruct (fn l (world st)); reflexivity. Qed.


Lemma raw_loop_app fn (xs ys : list Obj) st :
  RawContainer.notify_loop (xs ++ ys) fn st =
  match RawContainer.notify_loop xs fn st with
  | (st', None) => RawContainer.notify_loop ys fn st'
  | (st', Some e) => (st', Some e)
  end.
Proof.
  revert st. induction xs as [|x xs IH]; intros st; simpl.
  - reflexivity.
  - destruct (invoke fn x st) as [st' [e|]]; [reflexivity | apply IH].
Qed.


(** Whatever the callback does, the loop enters a prefix of the list. *)
Lemma raw_loop_prefix fn (ls : list Obj) st :
  exists done rest,
    ls = done ++ rest /\
    calls (fst (RawContainer.notify_loop ls fn st)) = calls st ++ done /\
    (snd (RawContainer.notify_loop ls fn st) = None -> rest = []).
Proof.
  revert st. induction ls as [|l ls IH]; intros st; simpl.
  - exists [], []. repeat split; now rewrite ?app_nil_r.
  - pose proof (invoke_calls fn l st) as Hc.
    destruct (invoke fn l st) as [st' [e|]]; simpl in Hc |- *.
    + exists [l], ls. repeat split; [exact Hc | discriminate].
    + destruct (IH st') as (d & r & E & C & N).
      exists (l :: d), r. split; [simpl; now rewrite E |].
      split; [| exact N].
      rewrite C, Hc, <- app_assoc. reflexivity.
Qed.

End RawNotify.

Section SmartNotify.
Variable Obj : Type.
Variable Obj_eq_dec : forall a b : Obj, {a = b} + {a <> b}.
Variables World Exn : Type.
Variable live : World -> Obj -> bool.
Implicit Types (fn : callback Obj World Exn) (st : exec Obj World).

Lemma invoke_world fn l st :
  world (fst (invoke fn l st)) = fst (fn l (world st)).
Proof. unfold invoke. destruct (fn l (world st)); reflexivity. Qed.

Lemma lock_ext (f g : Obj -> bool) (w : weak_ptr Obj) :
  (forall x, f x = g x) -> lock f w = lock g w.
Proof. intros E. destruct w as [|o]; simpl; [reflexivity | now rewrite E]. Qed.

Lemma resolved_ext (f g : Obj -> bool) (ms : list (weak_ptr Obj)) :
  (forall x, f x = g x) -> resolved f ms = resolved g ms.
Proof.
  intros E. induction ms as [|w ms IH]; simpl; [reflexivity |].
  rewrite (lock_ext f g w E), IH. reflexivity.
Qed.



Lemma smart_loop_app fn (xs ys : list (weak_ptr Obj)) st :
  SmartContainer.notify_loop live (xs ++ ys) fn st =
  match SmartContainer.notify_loop live xs fn st with
  | (st', None) => SmartContainer.notify_loop live ys fn st'
  | (st', Some e) => (st', Some e)
  end.
Proof.
  revert st. induction xs as [|x xs IH]; intros st; simpl.
  - reflexivity.
  - destruct (lock (live (world st)) x) as [l|]; [| apply IH].
    destruct (invoke fn l st) as [st' [e|]]; [reflexivity | apply IH].
Qed.


(** An object that is gone, and that no callback brings back, is not
    entered, whatever else the callbacks do. *)
Lemma smart_loop_dead fn (o : Obj) (ls : list (weak_ptr Obj)) st :
  (forall o' w, live w o = false -> live (fst (fn o' w)) o = false) ->
  live (world st) o = false ->
  exists entered,
    calls (fst (SmartContainer.notify_loop live ls fn st)) =
      calls st ++ entered /\
    ~ In o entered /\
    live (world (fst (SmartContainer.notify_loop live ls fn st))) o = false.
Proof.
  intros Hd. revert st. induction ls as [|x ls IH]; intros st Ho; simpl.
  - exists []. rewrite app_nil_r. auto.
  - destruct x as [|l]; simpl; [now apply IH |].
    destruct (live (world st) l) eqn:El; [| now apply IH].
    assert (l <> o) as Hne by (intros ->; congruence).
    pose proof (invoke_calls fn l st) as Hc.
    pose proof (invoke_world fn l st) as Hw.
    destruct (invoke fn l st) as [st' [e|]]; simpl in Hc, Hw |- *.
    + exists [l]. split; [exact Hc |]. split.
      * intros [H|[]]; auto.
      * rewrite Hw. now apply Hd.
    + destruct (IH st') as (en & C & N & D).
      { rewrite Hw. now apply Hd. }
      exists (l :: en). split; [rewrite C, Hc, <- app_assoc; reflexivity |].
      split; [| exact D].
      intros [H|H]; auto.
Qed.


End SmartNotify.

(** ** The matcher *)

Section Matcher.
Variable Capability : Type.
Variable Capability_eq_dec : forall a b : Capability, {a = b} + {a <> b}.
Variable T_Container : Type.
Variable Handle : Type.
Variable Container_attach : Handle -> T_Container -> result T_Container.
Variable T_Listeners : list Capability.

Local Abbreviation contains := (Source.contains Capability_eq_dec).
Local Abbreviation attach := (Source.attach Capability_eq_dec Container_attach T_Listeners).

Lemma contains_In (T : Capability) (Args : list Capability) :
  contains T Args = true <-> In T Args.
Proof.
  induction Args as [|A Args IH]; simpl.
  - split; [discriminate | tauto].
  - destruct (Capability_eq_dec T A) as [->|Hne].
    + split; auto.
    + rewrite IH. split; [auto | intros [E|H]; [congruence | exact H]].
Qed.


(** No common capability: no operand of the fold reaches a container. *)
Lemma attach_disjoint (Args : list Capability) (l : Handle)
      (s : Source.t Capability T_Container) :
  (forall c, In c Args -> ~ In c T_Listeners) ->
  attach Args l s = Ok s.
Proof.
  revert s. induction Args as [|A Args IH]; intros s Hd; simpl.
  - reflexivity.
  - destruct (contains A T_Listeners) eqn:E.
    + apply contains_In in E. exfalso. apply (Hd A); simpl; auto.
    + simpl. apply IH. intros c Hc. apply Hd. simpl. auto.
Qed.

(** When the container's [attach] accepts the handle and turns a container
    [c] into [push c], the source's [attach] pushes once per occurrence of a
    declared capability in [Args]. *)
Lemma attach_pushes (push : T_Container -> T_Container) (l : Handle)
      (Args : list Capability) (s : Source.t Capability T_Container) :
  (forall c, Container_attach l c = Ok (push c)) ->
  exists s',
    attach Args l s = Ok s' /\
    forall T, s' T =
      Nat.iter (if contains T T_Listeners
                then count_occ Capability_eq_dec Args T else 0)
               push (s T).
Proof.
  intros Hp. revert s. induction Args as [|A Args IH]; intros s; simpl.
  - exists s. split; [reflexivity |]. intros T.
    destruct (contains T T_Listeners); reflexivity.
  - destruct (contains A T_Listeners) eqn:E; simpl.
    + rewrite Hp. simpl.
      destruct (IH (Source.set_base Capability_eq_dec A (push (s A)) s))
        as (s' & Hs' & Hc).
      exists s'. split; [exact Hs' |]. intros T. rewrite Hc.
      unfold Source.set_base.
      destruct (Capability_eq_dec T A) as [->|Hne].
      * rewrite E. destruct (Capability_eq_dec A A) as [_|]; [| congruence].
        rewrite Nat.iter_succ_r. reflexivity.
      * destruct (Capability_eq_dec A T) as [->|_]; [congruence |].
        reflexivity.
    + destruct (IH s) as (s' & Hs' & Hc).
      exists s'. split; [exact Hs' |]. intros T. rewrite Hc.
      destruct (Capability_eq_dec A T) as [->|_]; [| reflexivity].
      rewrite E. reflexivity.
Qed.

End Matcher.

(** ** Attach, then notify *)

Section AttachCounts.
Variable Capability : Type.
Variable Capability_eq_dec : forall a b : Capability, {a = b} + {a <> b}.
Variable Obj : Type.
Variable Obj_eq_dec : forall a b : Obj, {a = b} + {a <> b}.
Variable T_Listeners : list Capability.




End AttachCounts.

(** ** Claims about attach *)


(** C7.  A listener whose capabilities are disjoint from the source's:
    attach returns, with the source exactly as it was, for both kinds of
    source and for any handle. *)
Theorem attach_disjoint_is_noop
        (Capability Obj : Type)
        (Capability_eq_dec : forall a b : Capability, {a = b} + {a <> b})
        (T_Listeners Args : list Capability) (listener : ptr Obj) :
  (forall c, In c Args -> ~ In c T_Listeners) ->
  (forall s : RawSource.t Capability Obj,
      RawSource.attach Capability_eq_dec T_Listeners Args listener s = Ok s) /\
  (forall s : SmartSource.t Capability Obj,
      SmartSource.attach Capability_eq_dec T_Listeners Args listener s = Ok s).
Proof.
  intros Hd. split; intros s.
  - apply attach_disjoint. exact Hd.
  - apply attach_disjoint. exact Hd.
Qed.

(** C9.  Both containers: attach of a null handle dies in the assertion;
    attach of a non-null handle returns with the handle appended. *)
Theorem attach_null_asserts_else_appends (Obj : Type) :
  (forall m : RawContainer.t Obj,
      RawContainer.attach None m = AssertionFailed) /\
  (forall (l : Obj) (m : RawContainer.t Obj),
      RawContainer.attach (Some l) m = Ok (m ++ [l])) /\
  (forall m : SmartContainer.t Obj,
      SmartContainer.attach None m = AssertionFailed) /\
  (forall (l : Obj) (m : SmartContainer.t Obj),
      SmartContainer.attach (Some l) m = Ok (m ++ [WRef l])).
Proof. repeat split. Qed.

(** ** Claims about notify *)

Section NotifyFacts.
Variable Obj : Type.
Variables World Exn : Type.
Implicit Types (fn : callback Obj World Exn) (st : exec Obj World).



(** A run of the raw loop that ends without an error entered every entry. *)
Lemma raw_loop_complete fn (ls : list Obj) st :
  snd (RawContainer.notify_loop ls fn st) = None ->
  calls (fst (RawContainer.notify_loop ls fn st)) = calls st ++ ls.
Proof.
  intros Hn. destruct (raw_loop_prefix fn ls st) as (d & r & E & C & N).
  rewrite C, E, (N Hn), app_nil_r. reflexivity.
Qed.

Variable live : World -> Obj -> bool.

(** The same for the smart loop, on a heap the callback leaves alone. *)
Lemma smart_loop_complete fn (ls : list (weak_ptr Obj)) st :
  keeps_heap live fn ->
  snd (SmartContainer.notify_loop live ls fn st) = None ->
  calls (fst (SmartContainer.notify_loop live ls fn st)) =
    calls st ++ resolved (live (world st)) ls.
Proof.
  intros Hk. revert st. induction ls as [|x ls IH]; intros st; simpl.
  - intros _. now rewrite app_nil_r.
  - destruct (lock (live (world st)) x) as [l|]; [| apply IH].
    pose proof (invoke_calls fn l st) as Hc.
    pose proof (invoke_world fn l st) as Hw.
    destruct (invoke fn l st) as [st' [e|]]; simpl in Hc, Hw |- *.
    + discriminate.
    + intros Hn. rewrite (IH st' Hn), Hc, <- app_assoc. simpl.
      do 2 f_equal. apply resolved_ext. intros y. rewrite Hw. apply Hk.
Qed.


End NotifyFacts.


(** C8.  Both containers: when the callback raises [e] in a listener, the
    notify ends there with [e]: the entries behind it are not entered.  A
    notify that ends without an error entered every entry (every entry that
    resolves, for the smart container on an unchanged heap). *)
Theorem notify_fails_fast
        (Obj World Exn : Type)
        (fn : callback Obj World Exn) (st : exec Obj World) :
  (forall (pre post : list Obj) (l : Obj) st1 st2 e,
    RawContainer.notify_loop pre fn st = (st1, None) ->
    invoke fn l st1 = (st2, Some e) ->
    RawContainer.notify fn st (pre ++ l :: post) =
      (pre ++ l :: post, (st2, Some e)) /\
    calls st2 = calls st ++ pre ++ [l])
  /\
  (forall m : RawContainer.t Obj,
    snd (snd (RawContainer.notify fn st m)) = None ->
    calls (fst (snd (RawContainer.notify fn st m))) = calls st ++ m)
  /\
  (forall (live : World -> Obj -> bool)
          (pre post : list (weak_ptr Obj)) (l : Obj) st1 st2 e,
    SmartContainer.notify_loop live pre fn st = (st1, None) ->
    live (world st1) l = true ->
    invoke fn l st1 = (st2, Some e) ->
    SmartContainer.notify live fn st (pre ++ WRef l :: post) =
      (pre ++ WRef l :: post, (st2, Some e)) /\
    calls st2 = calls st1 ++ [l])
  /\
  (forall (live : World -> Obj -> bool) (m : SmartContainer.t Obj),
    keeps_heap live fn ->
    snd (snd (SmartContainer.notify live fn st m)) = None ->
    calls (fst (snd (SmartContainer.notify live fn st m))) =
      calls st ++ resolved (live (world st)) m).
Proof.
  split; [| split; [| split]].
  - intros pre post l st1 st2 e Hpre Hinv. split.
    + unfold RawContainer.notify. rewrite raw_loop_app, Hpre. simpl.
      rewrite Hinv. reflexivity.
    + pose proof (invoke_calls fn l st1) as Hc. rewrite Hinv in Hc.
      simpl in Hc. rewrite Hc.
      pose proof (raw_loop_complete fn pre st) as Hp. rewrite Hpre in Hp.
      simpl in Hp. rewrite (Hp eq_refl), <- app_assoc. reflexivity.
  - intros m Hn. unfold RawContainer.notify in *. cbn [fst snd] in *.
    now apply raw_loop_complete.
  - intros live pre post l st1 st2 e Hpre Hl Hinv. split.
    + unfold SmartContainer.notify. rewrite smart_loop_app, Hpre. simpl.
      rewrite Hl, Hinv. reflexivity.
    + pose proof (invoke_calls fn l st1) as Hc. rewrite Hinv in Hc.
      exact Hc.
  - intros live m Hk Hn. unfold SmartContainer.notify in *.
    cbn [fst snd] in *. now apply smart_loop_complete.
Qed.


(** ** Claims about detach *)

Section DetachFacts.
Variable Capability : Type.
Variable Capability_eq_dec : forall a b : Capability, {a = b} + {a <> b}.
Variable T_Container : Type.
Variable Handle : Type.
Variable Container_detach : Handle -> T_Container -> result T_Container.
Variable T_Listeners : list Capability.

(** When the container's [detach] is ill-formed, so is the source's as soon
    as one capability is shared: the fold instantiates it for that
    capability. *)
Lemma detach_ill_formed (Args : list Capability) (l : Handle)
      (s : Source.t Capability T_Container) :
  (forall c, Container_detach l c = IllFormed) ->
  (exists c, In c Args /\ In c T_Listeners) ->
  Source.detach Capability_eq_dec Container_detach T_Listeners Args l s
  = IllFormed.
Proof.
  intros Hi (c & Hc & Ht). revert s.
  induction Args as [|A Args IH]; intros s; [destruct Hc |].
  simpl. unfold Source.cond_detach.
  destruct (Source.contains Capability_eq_dec A T_Listeners) eqn:E; simpl.
  - rewrite Hi. reflexivity.
  - destruct Hc as [->|Hc].
    + apply (contains_In Capability_eq_dec) in Ht. congruence.
    + apply IH. exact Hc.
Qed.

End DetachFacts.

(** C2.  [RawContainer::detach] for any handle and any container, the
    handle registered there or not: the call is ill-formed, because
    [std::remove_if] is handed the pointer as its predicate.  No entry is
    removed and the container is not given back unchanged either. *)
Theorem raw_detach_is_ill_formed
        (Obj : Type) (listener : ptr Obj) (m : RawContainer.t Obj) :
  RawContainer.detach listener m = IllFormed /\
  (forall m', RawContainer.detach listener m <> Ok m').
Proof.
  assert (RawContainer.detach listener m = IllFormed) as E by reflexivity.
  split; [exact E |]. intros m'. rewrite E. discriminate.
Qed.

(** C3.  [SmartContainer::detach] for any heap, any handle and any
    container: the call is ill-formed, because the lambda handed to
    [std::remove_if] calls [ptr.empty()] on a [std::shared_ptr].  Neither
    the entries of the handle nor the expired ones are removed. *)
Theorem smart_detach_is_ill_formed
        (Obj World : Type) (Obj_eq_dec : forall a b : Obj, {a = b} + {a <> b})
        (live : World -> Obj -> bool) (w : World)
        (listener : ptr Obj) (m : SmartContainer.t Obj) :
  SmartContainer.detach Obj_eq_dec live w listener m = IllFormed /\
  (forall m', SmartContainer.detach Obj_eq_dec live w listener m <> Ok m').
Proof.
  assert (SmartContainer.detach Obj_eq_dec live w listener m = IllFormed)
    as E by reflexivity.
  split; [exact E |]. intros m'. rewrite E. discriminate.
Qed.

(** C5.  attach(L) followed by detach(L) on a source that shares a
    capability with L, from any state: the attach returns and the detach is
    ill-formed, so the sequence is not a program and no notify follows it,
    on the raw and on the smart source. *)
Theorem attach_then_detach_is_ill_formed
        (Capability Obj World : Type)
        (Capability_eq_dec : forall a b : Capability, {a = b} + {a <> b})
        (Obj_eq_dec : forall a b : Obj, {a = b} + {a <> b})
        (live : World -> Obj -> bool) (w : World)
        (T_Listeners Args : list Capability) (L : Obj) :
  (exists c, In c Args /\ In c T_Listeners) ->
  (forall s : RawSource.t Capability Obj,
    (exists s1,
       RawSource.attach Capability_eq_dec T_Listeners Args (Some L) s
         = Ok s1) /\
    (s1 <- RawSource.attach Capability_eq_dec T_Listeners Args (Some L) s ;;
     RawSource.detach Capability_eq_dec T_Listeners Args (Some L) s1)
    = IllFormed)
  /\
  (forall s : SmartSource.t Capability Obj,
    (exists s1,
       SmartSource.attach Capability_eq_dec T_Listeners Args (Some L) s
         = Ok s1) /\
    (s1 <- SmartSource.attach Capability_eq_dec T_Listeners Args (Some L) s ;;
     SmartSource.detach Capability_eq_dec Obj_eq_dec live T_Listeners w Args
       (Some L) s1)
    = IllFormed).
Proof.
  intros Hs. split; intros s.
  - destruct (attach_pushes Capability_eq_dec (@RawContainer.attach Obj)
                T_Listeners (fun m => m ++ [L]) (Some L) Args s)
      as (s1 & E1 & _); [reflexivity |].
    split; [exists s1; exact E1 |].
    unfold RawSource.attach. rewrite E1. cbn [bind].
    apply detach_ill_formed; [reflexivity | exact Hs].
  - destruct (attach_pushes Capability_eq_dec (@SmartContainer.attach Obj)
                T_Listeners (fun m => m ++ [WRef L]) (Some L) Args s)
      as (s1 & E1 & _); [reflexivity |].
    split; [exists s1; exact E1 |].
    unfold SmartSource.attach. rewrite E1. cbn [bind].
    apply detach_ill_formed; [reflexivity | exact Hs].
Qed.

(** ** The statements at the data of the demonstration program *)


(** The mouse-only observer attached to a keyboard-only source. *)
Lemma attach_disjoint_is_noop_demo :
  (forall c, In c [Demo.MouseListener] -> ~ In c [Demo.KeyboardListener]) /\
  RawSource.attach Demo.Capability_eq_dec [Demo.KeyboardListener]
    [Demo.MouseListener] (Some Demo.mouseOnlyObserver)
    (@RawSource.empty Demo.Capability Demo.Obj)
  = Ok (@RawSource.empty Demo.Capability Demo.Obj) /\
  SmartSource.attach Demo.Capability_eq_dec [Demo.KeyboardListener]
    [Demo.MouseListener] (Some Demo.mouseOnlyObserver)
    (@SmartSource.empty Demo.Capability Demo.Obj)
  = Ok (@SmartSource.empty Demo.Capability Demo.Obj).
Proof.
  assert (forall c, In c [Demo.MouseListener] ->
                    ~ In c [Demo.KeyboardListener]) as Hd.
  { intros c [<-|[]] [H|[]]. discriminate. }
  split; [exact Hd |]. split.
  - apply (proj1 (@attach_disjoint_is_noop Demo.Capability Demo.Obj
                    Demo.Capability_eq_dec [Demo.KeyboardListener]
                    [Demo.MouseListener] (Some Demo.mouseOnlyObserver) Hd)).
  - apply (proj2 (@attach_disjoint_is_noop Demo.Capability Demo.Obj
                    Demo.Capability_eq_dec [Demo.KeyboardListener]
                    [Demo.MouseListener] (Some Demo.mouseOnlyObserver) Hd)).
Defined.


(** A callback raising 13 in observer 2, on the entries 1, 2, 3. *)
Lemma notify_fails_fast_demo :
  (RawContainer.notify (Demo.raising_in 2 13) Demo.start [1; 2; 3] =
     ([1; 2; 3], (Exec [] [1; 2], Some 13)) /\
   calls (Exec (Obj:=Demo.Obj) (World:=Demo.World) [] [1; 2]) = [1; 2]) /\
  (SmartContainer.notify Demo.live (Demo.raising_in 2 13) Demo.start
     [WRef 1; WRef 2; WRef 3] =
     ([WRef 1; WRef 2; WRef 3], (Exec [] [1; 2], Some 13)) /\
   calls (Exec (Obj:=Demo.Obj) (World:=Demo.World) [] [1; 2]) = [1; 2]) /\
  calls (fst (snd (RawContainer.notify Demo.onLeftMouseButton Demo.start
                     [1; 2; 3]))) = [1; 2; 3] /\
  calls (fst (snd (SmartContainer.notify Demo.live Demo.onLeftMouseButton
                     (Exec [2] []) [WRef 1; WRef 2; WRef 3]))) = [1; 3].
Proof.
  pose proof (@notify_fails_fast Demo.Obj Demo.World Demo.Exn
                (Demo.raising_in 2 13) Demo.start) as (R & _ & S & _).
  split; [| split; [| split]].
  - apply (R [1] [3] 2 (Exec [] [1]) (Exec [] [1; 2]) 13);
      reflexivity.
  - apply (S Demo.live [WRef 1] [WRef 3] 2 (Exec [] [1]) (Exec [] [1; 2]) 13);
      reflexivity.
  - apply (proj1 (proj2 (@notify_fails_fast Demo.Obj Demo.World Demo.Exn
                           Demo.onLeftMouseButton Demo.start)) [1; 2; 3]).
    reflexivity.
  - apply (proj2 (proj2 (proj2
             (@notify_fails_fast Demo.Obj Demo.World Demo.Exn
                Demo.onLeftMouseButton (Exec [2] []))))
             Demo.live [WRef 1; WRef 2; WRef 3]).
    + intros o w x. reflexivity.
    + reflexivity.
Defined.


(** * Further properties of the matcher, the containers and the source *)

(** ** The matcher on an arbitrary container *)

Section MatcherMore.
Variable Capability : Type.
Variable Capability_eq_dec : forall a b : Capability, {a = b} + {a <> b}.
Variable T_Container : Type.
Variable Handle : Type.
Variable Container_attach : Handle -> T_Container -> result T_Container.
Variable Container_detach : Handle -> T_Container -> result T_Container.
Variable T_Listeners : list Capability.

Local Abbreviation contains := (Source.contains Capability_eq_dec).
Local Abbreviation attach :=
  (Source.attach Capability_eq_dec Container_attach T_Listeners).
Local Abbreviation detach :=
  (Source.detach Capability_eq_dec Container_detach T_Listeners).

Lemma contains_in_dec (T : Capability) (Args : list Capability) :
  contains T Args = if in_dec Capability_eq_dec T Args then true else false.
Proof.
  destruct (in_dec Capability_eq_dec T Args) as [H|H].
  - now apply contains_In.
  - destruct (contains T Args) eqn:E; [| reflexivity].
    apply contains_In in E. contradiction.
Qed.

Lemma detach_disjoint (Args : list Capability) (l : Handle)
      (s : Source.t Capability T_Container) :
  (forall c, In c Args -> ~ In c T_Listeners) ->
  detach Args l s = Ok s.
Proof.
  revert s. induction Args as [|A Args IH]; intros s Hd; simpl.
  - reflexivity.
  - destruct (contains A T_Listeners) eqn:E.
    + apply contains_In in E. exfalso. apply (Hd A); simpl; auto.
    + simpl. apply IH. intros c Hc. apply Hd. simpl. auto.
Qed.

(** A container of a capability that is not among [Args] is not touched. *)
Lemma attach_frame (Args : list Capability) (l : Handle)
      (s s' : Source.t Capability T_Container) (T : Capability) :
  ~ In T Args -> attach Args l s = Ok s' -> s' T = s T.
Proof.
  revert s. induction Args as [|A Args IH]; intros s Hni; simpl.
  - intros [= <-]. reflexivity.
  - unfold Source.cond_attach.
    destruct (contains A T_Listeners); simpl.
    + destruct (Container_attach l (s A)) as [c| | |]; simpl;
        [| discriminate ..].
      intros H. rewrite (IH _ (fun h => Hni (or_intror h)) H).
      unfold Source.set_base.
      destruct (Capability_eq_dec T A) as [->|_]; [| reflexivity].
      exfalso. apply Hni. left. reflexivity.
    + apply IH. intros h. apply Hni. right. exact h.
Qed.

Lemma detach_frame (Args : list Capability) (l : Handle)
      (s s' : Source.t Capability T_Container) (T : Capability) :
  ~ In T Args -> detach Args l s = Ok s' -> s' T = s T.
Proof.
  revert s. induction Args as [|A Args IH]; intros s Hni; simpl.
  - intros [= <-]. reflexivity.
  - unfold Source.cond_detach.
    destruct (contains A T_Listeners); simpl.
    + destruct (Container_detach l (s A)) as [c| | |]; simpl;
        [| discriminate ..].
      intros H. rewrite (IH _ (fun h => Hni (or_intror h)) H).
      unfold Source.set_base.
      destruct (Capability_eq_dec T A) as [->|_]; [| reflexivity].
      exfalso. apply Hni. left. reflexivity.
    + apply IH. intros h. apply Hni. right. exact h.
Qed.

(** A handle every container refuses is refused by the source as soon as one
    capability is shared. *)
Lemma attach_refused (Args : list Capability) (l : Handle)
      (s : Source.t Capability T_Container) :
  (forall c, Container_attach l c = AssertionFailed) ->
  (exists c, In c Args /\ In c T_Listeners) ->
  attach Args l s = AssertionFailed.
Proof.
  intros Hr (c & Hc & Ht). revert s.
  induction Args as [|A Args IH]; intros s; [destruct Hc |].
  simpl. unfold Source.cond_attach.
  destruct (contains A T_Listeners) eqn:E; simpl.
  - rewrite Hr. reflexivity.
  - destruct Hc as [->|Hc].
    + apply (contains_In Capability_eq_dec) in Ht. congruence.
    + apply IH. exact Hc.
Qed.

End MatcherMore.

Lemma iter_push_repeat (A : Type) (x : A) (k : nat) (m : list A) :
  Nat.iter k (fun m => m ++ [x]) m = m ++ repeat x k.
Proof.
  induction k as [|k IH]; simpl.
  - now rewrite app_nil_r.
  - rewrite IH, <- app_assoc, <- repeat_cons. reflexivity.
Qed.

(** ** The overloads taking a shared_ptr *)

Section SharedOverloads.
Variable Capability : Type.
Variable Capability_eq_dec : forall a b : Capability, {a = b} + {a <> b}.
Variable T_Container : Type.
Variable Handle : Type.
Variable Container_attach : Handle -> T_Container -> result T_Container.
Variable Container_detach : Handle -> T_Container -> result T_Container.
Variable T_Listeners : list Capability.

(** Every listener class derives from exactly one [Listener<Args...>]. *)
Lemma ListenerType_is_Listener (T : Source.listener_class Capability) :
  exists Args, Source.ListenerType T = Source.Listener Args.
Proof.
  induction T as [Args|base IH]; [exists Args; reflexivity | exact IH].
Qed.

(** A call with a [shared_ptr<T>] ends in the overload for
    [shared_ptr<Listener<Args...>>], with the pack of the [Listener] that
    [T] derives from and with the pointer it was given. *)
Lemma attach_shared_resolves (T : Source.listener_class Capability)
      (Args : list Capability) (h : Handle)
      (s : Source.t Capability T_Container) :
  Source.ListenerType T = Source.Listener Args ->
  Source.attach_shared Capability_eq_dec Container_attach T_Listeners
    {| Source.element_type := T; Source.get := h |} s =
  Source.attach Capability_eq_dec Container_attach T_Listeners Args h s.
Proof.
  intros HT. unfold Source.attach_shared. cbn [Source.element_type].
  destruct T as [Args0|base]; cbn [Source.deduce_Args Source.get].
  - cbn in HT. injection HT as ->. reflexivity.
  - unfold Source.attach_convenience, Source.static_pointer_cast.
    cbn [Source.element_type Source.get]. rewrite HT. reflexivity.
Qed.

Lemma detach_shared_resolves (T : Source.listener_class Capability)
      (Args : list Capability) (h : Handle)
      (s : Source.t Capability T_Container) :
  Source.ListenerType T = Source.Listener Args ->
  Source.detach_shared Capability_eq_dec Container_detach T_Listeners
    {| Source.element_type := T; Source.get := h |} s =
  Source.detach Capability_eq_dec Container_detach T_Listeners Args h s.
Proof.
  intros HT. unfold Source.detach_shared. cbn [Source.element_type].
  destruct T as [Args0|base]; cbn [Source.deduce_Args Source.get].
  - cbn in HT. injection HT as ->. reflexivity.
  - unfold Source.detach_convenience, Source.static_pointer_cast.
    cbn [Source.element_type Source.get]. rewrite HT. reflexivity.
Qed.

End SharedOverloads.

(** C10.  For a listener class [T] that derives from [Listener<Args...>],
    a call of [attach] or [detach] with a [shared_ptr<T>] gives what the
    call with a [shared_ptr<Listener<Args...>>] to the same object gives.
    For [attach] that is: a non-null pointer is appended to the container of
    every capability of [Args...] the source declares and to no other, and
    a null pointer dies in the assertion when a capability is shared.  For
    [detach] that is: the source unchanged when no capability is shared,
    and an ill-formed call when one is. *)
Theorem convenience_overloads_agree
        (Capability Obj World : Type)
        (Capability_eq_dec : forall a b : Capability, {a = b} + {a <> b})
        (Obj_eq_dec : forall a b : Obj, {a = b} + {a <> b})
        (live : World -> Obj -> bool) (w : World)
        (T_Listeners : list Capability)
        (T : Source.listener_class Capability) (Args : list Capability)
        (listener : ptr Obj) (s : SmartSource.t Capability Obj) :
  Source.ListenerType T = Source.Listener Args ->
  SmartSource.attach_shared Capability_eq_dec T_Listeners
    {| Source.element_type := T; Source.get := listener |} s =
  SmartSource.attach_shared Capability_eq_dec T_Listeners
    {| Source.element_type := Source.Listener Args;
       Source.get := listener |} s
  /\
  (forall l, listener = Some l ->
     exists s',
       SmartSource.attach_shared Capability_eq_dec T_Listeners
         {| Source.element_type := T; Source.get := listener |} s = Ok s' /\
       forall c,
         s' c = s c ++ repeat (WRef l)
                  (if Source.contains Capability_eq_dec c T_Listeners
                   then count_occ Capability_eq_dec Args c else 0))
  /\
  (listener = None ->
   (exists c, In c Args /\ In c T_Listeners) ->
   SmartSource.attach_shared Capability_eq_dec T_Listeners
     {| Source.element_type := T; Source.get := listener |} s
   = AssertionFailed)
  /\
  SmartSource.detach_shared Capability_eq_dec Obj_eq_dec live T_Listeners w
    {| Source.element_type := T; Source.get := listener |} s =
  SmartSource.detach_shared Capability_eq_dec Obj_eq_dec live T_Listeners w
    {| Source.element_type := Source.Listener Args;
       Source.get := listener |} s
  /\
  ((forall c, In c Args -> ~ In c T_Listeners) ->
   SmartSource.detach_shared Capability_eq_dec Obj_eq_dec live T_Listeners w
     {| Source.element_type := T; Source.get := listener |} s = Ok s)
  /\
  ((exists c, In c Args /\ In c T_Listeners) ->
   SmartSource.detach_shared Capability_eq_dec Obj_eq_dec live T_Listeners w
     {| Source.element_type := T; Source.get := listener |} s = IllFormed).
Proof.
  intros HT. unfold SmartSource.attach_shared, SmartSource.detach_shared.
  rewrite (attach_shared_resolves Capability_eq_dec
             (@SmartContainer.attach Obj) T_Listeners T listener s HT).
  rewrite (detach_shared_resolves Capability_eq_dec
             (SmartContainer.detach Obj_eq_dec live w) T_Listeners T
             listener s HT).
  split; [reflexivity |]. split; [| split; [| split; [reflexivity | split]]].
  - intros l ->.
    destruct (attach_pushes Capability_eq_dec (@SmartContainer.attach Obj)
                T_Listeners (fun m => m ++ [WRef l]) (Some l) Args s)
      as (s' & E & P); [reflexivity |].
    exists s'. split; [exact E |]. intros c. rewrite P.
    apply iter_push_repeat.
  - intros -> Hs. apply attach_refused; [reflexivity | exact Hs].
  - intros Hd. apply detach_disjoint. exact Hd.
  - intros Hs. apply detach_ill_formed; [reflexivity | exact Hs].
Qed.

(** X1.  [detail::contains<T, Args...>::value] is true exactly when [T] is
    one of [Args]. *)
Theorem contains_is_membership
        (Capability : Type)
        (Capability_eq_dec : forall a b : Capability, {a = b} + {a <> b})
        (T : Capability) (Args : list Capability) :
  Source.contains Capability_eq_dec T Args =
  if in_dec Capability_eq_dec T Args then true else false.
Proof. apply contains_in_dec. Qed.

(** X2.  [Source::attach] with a non-null handle always returns; the
    container of a declared capability receives the handle at its end once
    per occurrence of the capability in [Args], and every other container
    is left as it was. *)
Theorem source_attach_appends_per_shared_capability
        (Capability Obj : Type)
        (Capability_eq_dec : forall a b : Capability, {a = b} + {a <> b})
        (T_Listeners Args : list Capability) (l : Obj) :
  (forall s : RawSource.t Capability Obj,
    exists s',
      RawSource.attach Capability_eq_dec T_Listeners Args (Some l) s = Ok s' /\
      forall T,
        s' T = s T ++ repeat l
                 (if Source.contains Capability_eq_dec T T_Listeners
                  then count_occ Capability_eq_dec Args T else 0))
  /\
  (forall s : SmartSource.t Capability Obj,
    exists s',
      SmartSource.attach Capability_eq_dec T_Listeners Args (Some l) s
        = Ok s' /\
      forall T,
        s' T = s T ++ repeat (WRef l)
                 (if Source.contains Capability_eq_dec T T_Listeners
                  then count_occ Capability_eq_dec Args T else 0)).
Proof.
  split; intros s.
  - destruct (attach_pushes Capability_eq_dec (@RawContainer.attach Obj)
                T_Listeners (fun m => m ++ [l]) (Some l) Args s)
      as (s' & E & P); [reflexivity |].
    exists s'. split; [exact E |]. intros T.
    rewrite P. apply iter_push_repeat.
  - destruct (attach_pushes Capability_eq_dec (@SmartContainer.attach Obj)
                T_Listeners (fun m => m ++ [WRef l]) (Some l) Args s)
      as (s' & E & P); [reflexivity |].
    exists s'. split; [exact E |]. intros T.
    rewrite P. apply iter_push_repeat.
Qed.

(** X3.  [Source::attach] with a null handle dies in the assertion of the
    first shared capability's container, on both kinds of source. *)
Theorem source_attach_null_asserts
        (Capability Obj : Type)
        (Capability_eq_dec : forall a b : Capability, {a = b} + {a <> b})
        (T_Listeners Args : list Capability) :
  (exists c, In c Args /\ In c T_Listeners) ->
  (forall s : RawSource.t Capability Obj,
      RawSource.attach Capability_eq_dec T_Listeners Args None s
      = AssertionFailed) /\
  (forall s : SmartSource.t Capability Obj,
      SmartSource.attach Capability_eq_dec T_Listeners Args None s
      = AssertionFailed).
Proof.
  intros Hs. split; intros s.
  - apply attach_refused; [reflexivity | exact Hs].
  - apply attach_refused; [reflexivity | exact Hs].
Qed.

(** X4.  The order in which a listener class lists its capabilities does
    not matter to [Source::attach]: two packs that are permutations of each
    other leave every container the same. *)
Theorem source_attach_ignores_capability_order
        (Capability Obj : Type)
        (Capability_eq_dec : forall a b : Capability, {a = b} + {a <> b})
        (T_Listeners Args Args' : list Capability) (l : Obj) :
  Permutation Args Args' ->
  (forall s : RawSource.t Capability Obj,
    exists s1 s2,
      RawSource.attach Capability_eq_dec T_Listeners Args (Some l) s = Ok s1 /\
      RawSource.attach Capability_eq_dec T_Listeners Args' (Some l) s = Ok s2 /\
      forall T, s1 T = s2 T)
  /\
  (forall s : SmartSource.t Capability Obj,
    exists s1 s2,
      SmartSource.attach Capability_eq_dec T_Listeners Args (Some l) s
        = Ok s1 /\
      SmartSource.attach Capability_eq_dec T_Listeners Args' (Some l) s
        = Ok s2 /\
      forall T, s1 T = s2 T).
Proof.
  intros Hp.
  pose proof (proj1 (Permutation_count_occ Capability_eq_dec Args Args') Hp)
    as Hc.
  split; intros s.
  - destruct (attach_pushes Capability_eq_dec (@RawContainer.attach Obj)
                T_Listeners (fun m => m ++ [l]) (Some l) Args s)
      as (s1 & E1 & P1); [reflexivity |].
    destruct (attach_pushes Capability_eq_dec (@RawContainer.attach Obj)
                T_Listeners (fun m => m ++ [l]) (Some l) Args' s)
      as (s2 & E2 & P2); [reflexivity |].
    exists s1, s2. repeat split; [exact E1 | exact E2 |].
    intros T. rewrite P1, P2, Hc. reflexivity.
  - destruct (attach_pushes Capability_eq_dec (@SmartContainer.attach Obj)
                T_Listeners (fun m => m ++ [WRef l]) (Some l) Args s)
      as (s1 & E1 & P1); [reflexivity |].
    destruct (attach_pushes Capability_eq_dec (@SmartContainer.attach Obj)
                T_Listeners (fun m => m ++ [WRef l]) (Some l) Args' s)
      as (s2 & E2 & P2); [reflexivity |].
    exists s1, s2. repeat split; [exact E1 | exact E2 |].
    intros T. rewrite P1, P2, Hc. reflexivity.
Qed.

(** X5.  [Source::detach] of a listener that shares no capability with the
    source returns with the source as it was, whatever the handle and
    whatever the containers hold: no container's [detach] is reached. *)
Theorem source_detach_disjoint_is_noop
        (Capability Obj World : Type)
        (Capability_eq_dec : forall a b : Capability, {a = b} + {a <> b})
        (Obj_eq_dec : forall a b : Obj, {a = b} + {a <> b})
        (live : World -> Obj -> bool) (w : World)
        (T_Listeners Args : list Capability) (listener : ptr Obj) :
  (forall c, In c Args -> ~ In c T_Listeners) ->
  (forall s : RawSource.t Capability Obj,
      RawSource.detach Capability_eq_dec T_Listeners Args
        listener s = Ok s) /\
  (forall s : SmartSource.t Capability Obj,
      SmartSource.detach Capability_eq_dec Obj_eq_dec live T_Listeners w Args
        listener s = Ok s).
Proof.
  intros Hd. split; intros s.
  - apply detach_disjoint. exact Hd.
  - apply detach_disjoint. exact Hd.
Qed.

(** X6.  Attaching or detaching a listener that does not implement the
    capability [T] changes nothing for [T]: a notify of [T] afterwards does
    what it would have done before, on both kinds of source. *)
Theorem other_capabilities_do_not_interfere
        (Capability Obj World Exn : Type)
        (Capability_eq_dec : forall a b : Capability, {a = b} + {a <> b})
        (Obj_eq_dec : forall a b : Obj, {a = b} + {a <> b})
        (live : World -> Obj -> bool) (w : World)
        (T_Listeners Args : list Capability) (T : Capability)
        (listener : ptr Obj)
        (fn : callback Obj World Exn) (st : exec Obj World) :
  ~ In T Args ->
  (forall s s' : RawSource.t Capability Obj,
    RawSource.attach Capability_eq_dec T_Listeners Args listener s = Ok s' \/
    RawSource.detach Capability_eq_dec T_Listeners Args listener s
      = Ok s' ->
    s' T = s T /\
    snd (RawSource.notify Capability_eq_dec T fn st s') =
    snd (RawSource.notify Capability_eq_dec T fn st s))
  /\
  (forall s s' : SmartSource.t Capability Obj,
    SmartSource.attach Capability_eq_dec T_Listeners Args listener s = Ok s' \/
    SmartSource.detach Capability_eq_dec Obj_eq_dec live T_Listeners w Args
      listener s = Ok s' ->
    s' T = s T /\
    snd (SmartSource.notify Capability_eq_dec live T fn st s') =
    snd (SmartSource.notify Capability_eq_dec live T fn st s)).
Proof.
  intros Hni. split; intros s s' H.
  - assert (s' T = s T) as E.
    { destruct H as [H|H].
      - eapply attach_frame; eassumption.
      - eapply detach_frame; eassumption. }
    split; [exact E |].
    unfold RawSource.notify, RawContainer.notify. cbn [snd]. now rewrite E.
  - assert (s' T = s T) as E.
    { destruct H as [H|H].
      - eapply attach_frame; eassumption.
      - eapply detach_frame; eassumption. }
    split; [exact E |].
    unfold SmartSource.notify, SmartContainer.notify. cbn [snd]. now rewrite E.
Qed.

(** X14.  [Source::detach] of a listener that shares a capability with the
    source is ill-formed, for any handle and any state, on the raw and on
    the smart source: the fold instantiates the container's [detach]. *)
Theorem source_detach_shared_is_ill_formed
        (Capability Obj World : Type)
        (Capability_eq_dec : forall a b : Capability, {a = b} + {a <> b})
        (Obj_eq_dec : forall a b : Obj, {a = b} + {a <> b})
        (live : World -> Obj -> bool) (w : World)
        (T_Listeners Args : list Capability) (listener : ptr Obj) :
  (exists c, In c Args /\ In c T_Listeners) ->
  (forall s : RawSource.t Capability Obj,
      RawSource.detach Capability_eq_dec T_Listeners Args listener s
      = IllFormed) /\
  (forall s : SmartSource.t Capability Obj,
      SmartSource.detach Capability_eq_dec Obj_eq_dec live T_Listeners w Args
        listener s = IllFormed).
Proof.
  intros Hs. split; intros s.
  - apply detach_ill_formed; [reflexivity | exact Hs].
  - apply detach_ill_formed; [reflexivity | exact Hs].
Qed.

(** ** More on notify *)

Section NotifyMore.
Variable Obj : Type.
Variables World Exn : Type.
Implicit Types (fn : callback Obj World Exn) (st : exec Obj World).

Lemma raw_loop_single fn (l : Obj) st :
  RawContainer.notify_loop [l] fn st = invoke fn l st.
Proof. simpl. destruct (invoke fn l st) as [st' [e|]]; reflexivity. Qed.

Lemma raw_loop_error fn (m : list Obj) st (e : Exn) :
  snd (RawContainer.notify_loop m fn st) = Some e ->
  exists pre l post st1,
    m = pre ++ l :: post /\
    RawContainer.notify_loop pre fn st = (st1, None) /\
    RawContainer.notify_loop m fn st = invoke fn l st1 /\
    calls (fst (RawContainer.notify_loop m fn st)) = calls st ++ pre ++ [l].
Proof.
  revert st. induction m as [|x m IH]; intros st; simpl; [discriminate |].
  pose proof (invoke_calls fn x st) as Hc.
  destruct (invoke fn x st) as [st' [e'|]] eqn:Ei; simpl in Hc |- *.
  - intros _. exists [], x, m, st. rewrite Ei. auto.
  - intros He. destruct (IH st' He) as (pre & l & post & st1 & E & P & I & C).
    exists (x :: pre), l, post, st1. simpl. rewrite Ei.
    repeat split; [now rewrite E | exact P | exact I |].
    rewrite C, Hc, <- app_assoc. reflexivity.
Qed.

Variable live : World -> Obj -> bool.

Lemma smart_loop_single fn (l : Obj) st :
  SmartContainer.notify_loop live [WRef l] fn st =
  if live (world st) l then invoke fn l st else (st, None).
Proof.
  simpl. destruct (live (world st) l); [| reflexivity].
  destruct (invoke fn l st) as [st' [e|]]; reflexivity.
Qed.

Lemma smart_loop_error fn (m : list (weak_ptr Obj)) st (e : Exn) :
  snd (SmartContainer.notify_loop live m fn st) = Some e ->
  exists pre l post st1,
    m = pre ++ WRef l :: post /\
    SmartContainer.notify_loop live pre fn st = (st1, None) /\
    live (world st1) l = true /\
    SmartContainer.notify_loop live m fn st = invoke fn l st1.
Proof.
  revert st. induction m as [|x m IH]; intros st; simpl; [discriminate |].
  destruct x as [|o]; cbn [lock].
  - intros He. destruct (IH st He) as (pre & l & post & st1 & E & P & L & I).
    exists (WEmpty :: pre), l, post, st1. simpl.
    repeat split; [now rewrite E | exact P | exact L | exact I].
  - destruct (live (world st) o) eqn:Eo.
    + destruct (invoke fn o st) as [st' [e'|]] eqn:Ei; simpl.
      * intros _. exists [], o, m, st. rewrite Ei. auto.
      * intros He.
        destruct (IH st' He) as (pre & l & post & st1 & E & P & L & I).
        exists (WRef o :: pre), l, post, st1. simpl. rewrite Eo, Ei.
        repeat split; [now rewrite E | exact P | exact L | exact I].
    + intros He. destruct (IH st He) as (pre & l & post & st1 & E & P & L & I).
      exists (WRef o :: pre), l, post, st1. simpl. rewrite Eo.
      repeat split; [now rewrite E | exact P | exact L | exact I].
Qed.

End NotifyMore.

(** X15.  A notify that ends with an error was stopped by one registered
    listener: the entries in front of it were gone through without an error,
    the error and the final state are those of the call into that listener,
    and (raw container) the listeners entered are exactly the ones up to and
    including it. *)
Theorem notify_error_comes_from_one_listener
        (Obj World Exn : Type)
        (fn : callback Obj World Exn) (st : exec Obj World) (e : Exn) :
  (forall m : RawContainer.t Obj,
    snd (snd (RawContainer.notify fn st m)) = Some e ->
    exists pre l post st1,
      m = pre ++ l :: post /\
      RawContainer.notify_loop pre fn st = (st1, None) /\
      snd (RawContainer.notify fn st m) = invoke fn l st1 /\
      calls (fst (snd (RawContainer.notify fn st m))) = calls st ++ pre ++ [l])
  /\
  (forall (live : World -> Obj -> bool) (m : SmartContainer.t Obj),
    snd (snd (SmartContainer.notify live fn st m)) = Some e ->
    exists pre l post st1,
      m = pre ++ WRef l :: post /\
      SmartContainer.notify_loop live pre fn st = (st1, None) /\
      live (world st1) l = true /\
      snd (SmartContainer.notify live fn st m) = invoke fn l st1).
Proof.
  split.
  - intros m. unfold RawContainer.notify. cbn [fst snd].
    apply raw_loop_error.
  - intros live m. unfold SmartContainer.notify. cbn [fst snd].
    apply smart_loop_error.
Qed.

(** X16.  A notify on a container to which one more listener was attached
    does what the notify on the container before did and then, unless that
    ended with an error, calls into the new listener (if it is still alive,
    for the smart container). *)
Theorem notify_after_attach_extends_notify
        (Obj World Exn : Type)
        (fn : callback Obj World Exn) (st : exec Obj World) (l : Obj) :
  (forall m m' : RawContainer.t Obj,
    RawContainer.attach (Some l) m = Ok m' ->
    snd (RawContainer.notify fn st m') =
    match snd (RawContainer.notify fn st m) with
    | (st', None) => invoke fn l st'
    | (st', Some e) => (st', Some e)
    end)
  /\
  (forall (live : World -> Obj -> bool) (m m' : SmartContainer.t Obj),
    SmartContainer.attach (Some l) m = Ok m' ->
    snd (SmartContainer.notify live fn st m') =
    match snd (SmartContainer.notify live fn st m) with
    | (st', None) => if live (world st') l then invoke fn l st' else (st', None)
    | (st', Some e) => (st', Some e)
    end).
Proof.
  split.
  - intros m m' [= <-]. unfold RawContainer.notify. cbn [snd].
    rewrite raw_loop_app.
    destruct (RawContainer.notify_loop m fn st) as [st' [e|]];
      [reflexivity | apply raw_loop_single].
  - intros live m m' [= <-]. unfold SmartContainer.notify. cbn [snd].
    rewrite smart_loop_app.
    destruct (SmartContainer.notify_loop live m fn st) as [st' [e|]];
      [reflexivity | apply smart_loop_single].
Qed.

(** X17.  A listener that is destroyed while a notify of the smart
    container is under way, by a callback of an entry in front, is not
    entered by the rest of that notify. *)
Theorem smart_notify_skips_listener_destroyed_midway
        (Obj World Exn : Type) (live : World -> Obj -> bool)
        (fn : callback Obj World Exn) (o : Obj)
        (pre post : list (weak_ptr Obj)) (st st1 : exec Obj World) :
  SmartContainer.notify_loop live pre fn st = (st1, None) ->
  live (world st1) o = false ->
  (forall o' w, live w o = false -> live (fst (fn o' w)) o = false) ->
  exists entered,
    calls (fst (snd (SmartContainer.notify live fn st (pre ++ post)))) =
      calls st1 ++ entered /\
    ~ In o entered.
Proof.
  intros Hpre Ho Hd. unfold SmartContainer.notify. cbn [fst snd].
  rewrite smart_loop_app, Hpre.
  destruct (smart_loop_dead live fn o post st1 Hd Ho) as (en & C & N & _).
  exists en. auto.
Qed.

(** ** What the containers of a source hold *)

(** X18.  When every listener is attached with the capabilities of its own
    class, the container of a capability only ever holds listeners that
    implement the capability, and only the containers of declared
    capabilities hold anything; such a sequence of attach calls always
    returns. *)
Theorem attach_keeps_containers_typed
        (Capability Obj : Type)
        (Capability_eq_dec : forall a b : Capability, {a = b} + {a <> b})
        (T_Listeners : list Capability)
        (declared : Obj -> list Capability) (trace : list Obj) :
  (forall s0 : RawSource.t Capability Obj,
    (forall c o, In o (s0 c) -> In c (declared o) /\ In c T_Listeners) ->
    exists s,
      run_calls (fun o => RawSource.attach Capability_eq_dec T_Listeners
                            (declared o) (Some o)) trace s0 = Ok s /\
      forall c o, In o (s c) -> In c (declared o) /\ In c T_Listeners)
  /\
  (forall s0 : SmartSource.t Capability Obj,
    (forall c o, In (WRef o) (s0 c) -> In c (declared o) /\ In c T_Listeners) ->
    exists s,
      run_calls (fun o => SmartSource.attach Capability_eq_dec T_Listeners
                            (declared o) (Some o)) trace s0 = Ok s /\
      forall c o, In (WRef o) (s c) -> In c (declared o) /\ In c T_Listeners).
Proof.
  split.
  - induction trace as [|l trace IH]; intros s0 H0.
    + exists s0. split; [reflexivity | exact H0].
    + cbn [run_calls].
      destruct (attach_pushes Capability_eq_dec (@RawContainer.attach Obj)
                  T_Listeners (fun m => m ++ [l]) (Some l) (declared l) s0)
        as (s1 & E1 & P1); [reflexivity |].
      unfold RawSource.attach at 1. rewrite E1. cbn [bind].
      apply IH. intros c o Hin.
      rewrite (eq_trans (P1 c) (iter_push_repeat _ _ _)) in Hin.
      apply in_app_or in Hin. destruct Hin as [Hin|Hin]; [now apply H0 |].
      destruct (Source.contains Capability_eq_dec c T_Listeners) eqn:Ec;
        [| destruct Hin].
      apply (contains_In Capability_eq_dec) in Ec.
      pose proof (repeat_spec _ _ _ Hin) as ->. split; [| exact Ec].
      apply (count_occ_In Capability_eq_dec).
      destruct (count_occ Capability_eq_dec (declared l) c);
        [destruct Hin | lia].
  - induction trace as [|l trace IH]; intros s0 H0.
    + exists s0. split; [reflexivity | exact H0].
    + cbn [run_calls].
      destruct (attach_pushes Capability_eq_dec (@SmartContainer.attach Obj)
                  T_Listeners (fun m => m ++ [WRef l]) (Some l) (declared l) s0)
        as (s1 & E1 & P1); [reflexivity |].
      unfold SmartSource.attach at 1. rewrite E1. cbn [bind].
      apply IH. intros c o Hin.
      rewrite (eq_trans (P1 c) (iter_push_repeat _ _ _)) in Hin.
      apply in_app_or in Hin. destruct Hin as [Hin|Hin]; [now apply H0 |].
      destruct (Source.contains Capability_eq_dec c T_Listeners) eqn:Ec;
        [| destruct Hin].
      apply (contains_In Capability_eq_dec) in Ec.
      pose proof (repeat_spec _ _ _ Hin) as E. injection E as ->.
      split; [| exact Ec].
      apply (count_occ_In Capability_eq_dec).
      destruct (count_occ Capability_eq_dec (declared l) c);
        [destruct Hin | lia].
Qed.

(** ** The test methods of main.cpp *)

Section MainProgram.
Import ZArith.
Local Open Scope Z_scope.

Implicit Types (st : exec Main.Obj Main.World).

Lemma mouse_loop_prints (a b : Z) (ls : list Main.Obj) st :
  let r := RawContainer.notify_loop ls (Main.onLeftMouseButton a b) st in
  snd r = None /\
  Main.cout (world (fst r)) =
    Main.cout (world st) ++
    map (fun l => Main.onLeftMouseButton_text
                    (Main.class_of (world st) l) a b) ls /\
  Main.class_of (world (fst r)) = Main.class_of (world st) /\
  Main.destroyed (world (fst r)) = Main.destroyed (world st) /\
  calls (fst r) = calls st ++ ls.
Proof.
  cbv zeta. revert st. induction ls as [|l ls IH]; intros st.
  - simpl. rewrite !app_nil_r. auto.
  - cbn [RawContainer.notify_loop invoke Main.onLeftMouseButton].
    match goal with
    | |- context [RawContainer.notify_loop ls _ ?s] =>
        destruct (IH s) as (H1 & H2 & H3 & H4 & H5)
    end.
    cbn [world calls Main.print Main.cout Main.class_of Main.destroyed]
      in H2, H3, H4, H5.
    repeat split; [exact H1 | | exact H3 | exact H4 |].
    + rewrite H2, <- app_assoc. reflexivity.
    + rewrite H5, <- app_assoc. reflexivity.
Qed.

Lemma invoke_onKeyPressed (k : Z) (l : Main.Obj) st :
  Main.class_of (world st) l = Main.MouseAndKeyboardObserver ->
  invoke (Main.onKeyPressed k) l st =
  (Exec (Main.print (Main.MouseAndKeyboardObserver_onKeyPressed k) (world st))
        (calls st ++ [l]), None).
Proof.
  intros H. unfold invoke, Main.onKeyPressed. rewrite H. reflexivity.
Qed.

Lemma key_loop_prints (k : Z) (ls : list Main.Obj) st :
  (forall l, In l ls ->
     Main.class_of (world st) l = Main.MouseAndKeyboardObserver) ->
  let r := RawContainer.notify_loop ls (Main.onKeyPressed k) st in
  snd r = None /\
  Main.cout (world (fst r)) =
    Main.cout (world st) ++
    repeat (Main.MouseAndKeyboardObserver_onKeyPressed k) (List.length ls) /\
  Main.class_of (world (fst r)) = Main.class_of (world st) /\
  Main.destroyed (world (fst r)) = Main.destroyed (world st) /\
  calls (fst r) = calls st ++ ls.
Proof.
  cbv zeta. revert st. induction ls as [|l ls IH]; intros st Hty.
  - simpl. rewrite !app_nil_r. auto.
  - cbn [RawContainer.notify_loop List.length repeat].
    rewrite (invoke_onKeyPressed k l st (Hty l (or_introl eq_refl))).
    match goal with
    | |- context [RawContainer.notify_loop ls _ ?s] =>
        destruct (IH s) as (H1 & H2 & H3 & H4 & H5)
    end.
    { intros l' Hl'. cbn [world Main.print Main.class_of].
      apply Hty. right. exact Hl'. }
    cbn [world calls Main.print Main.cout Main.class_of Main.destroyed]
      in H2, H3, H4, H5.
    repeat split; [exact H1 | | exact H3 | exact H4 |].
    + rewrite H2, <- app_assoc. reflexivity.
    + rewrite H5, <- app_assoc. reflexivity.
Qed.

Lemma smart_mouse_loop_prints (a b : Z) (ls : list (weak_ptr Main.Obj)) st :
  let r := SmartContainer.notify_loop Main.live ls
             (Main.onLeftMouseButton a b) st in
  snd r = None /\
  Main.cout (world (fst r)) =
    Main.cout (world st) ++
    map (fun l => Main.onLeftMouseButton_text
                    (Main.class_of (world st) l) a b)
        (resolved (Main.live (world st)) ls) /\
  Main.class_of (world (fst r)) = Main.class_of (world st) /\
  Main.destroyed (world (fst r)) = Main.destroyed (world st) /\
  calls (fst r) = calls st ++ resolved (Main.live (world st)) ls.
Proof.
  cbv zeta. revert st. induction ls as [|x ls IH]; intros st.
  - simpl. rewrite !app_nil_r. auto.
  - cbn [SmartContainer.notify_loop resolved].
    destruct (lock (Main.live (world st)) x) as [l|]; [| apply IH].
    cbn [invoke Main.onLeftMouseButton].
    match goal with
    | |- context [SmartContainer.notify_loop _ ls _ ?s] =>
        destruct (IH s) as (H1 & H2 & H3 & H4 & H5)
    end.
    cbn [world calls Main.print Main.cout Main.class_of Main.destroyed]
      in H2, H3, H4, H5.
    change (Main.live (Main.print
              (Main.onLeftMouseButton_text (Main.class_of (world st) l) a b)
              (world st)))
      with (Main.live (world st)) in H2, H5.
    repeat split; [exact H1 | | exact H3 | exact H4 |].
    + rewrite H2, <- app_assoc. reflexivity.
    + rewrite H5, <- app_assoc. reflexivity.
Qed.

(** X19.  [MouseAndKeyboardSource::test] on a source whose keyboard
    container holds keyboard listeners: it returns; it writes the mouse
    heading, one line with [(25, 48)] per registered mouse listener in
    attach order and by the listener's own class, the keyboard heading, and
    one line with [65] per registered keyboard listener; it enters the
    mouse listeners and then the keyboard listeners; and it leaves every
    container as it was. *)
Theorem MouseAndKeyboardSource_test_output
        st (s : RawSource.t Demo.Capability Main.Obj) :
  (forall l, In l (s Demo.KeyboardListener) ->
     Main.class_of (world st) l = Main.MouseAndKeyboardObserver) ->
  let r := Main.MouseAndKeyboardSource_test st s in
  snd (snd r) = None /\
  Main.cout (world (fst (snd r))) =
    Main.cout (world st)
    ++ [Main.mouse_heading]
    ++ map (fun l => Main.onLeftMouseButton_text
                       (Main.class_of (world st) l) 25 48)
           (s Demo.MouseListener)
    ++ [Main.keyboard_heading]
    ++ repeat (Main.MouseAndKeyboardObserver_onKeyPressed 65)
              (List.length (s Demo.KeyboardListener)) /\
  calls (fst (snd r)) =
    calls st ++ s Demo.MouseListener ++ s Demo.KeyboardListener /\
  (forall T, fst r T = s T).
Proof.
  intros Hty. cbv zeta.
  unfold Main.MouseAndKeyboardSource_test, RawSource.notify,
    RawContainer.notify.
  pose proof (mouse_loop_prints 25 48 (s Demo.MouseListener)
                (Main.say Main.mouse_heading st)) as HM.
  cbv zeta in HM.
  destruct (RawContainer.notify_loop (s Demo.MouseListener)
              (Main.onLeftMouseButton 25 48)
              (Main.say Main.mouse_heading st)) as [st1 r1].
  destruct HM as (M1 & M2 & M3 & M4 & M5).
  cbn [fst snd] in M1, M2, M3, M4, M5. subst r1.
  cbn [world calls Main.say Main.print Main.cout Main.class_of Main.destroyed]
    in M2, M3, M4, M5.
  change (Source.set_base Demo.Capability_eq_dec Demo.MouseListener
            (s Demo.MouseListener) s Demo.KeyboardListener)
    with (s Demo.KeyboardListener).
  pose proof (key_loop_prints 65 (s Demo.KeyboardListener)
                (Main.say Main.keyboard_heading st1)) as HK.
  cbv zeta in HK.
  destruct (RawContainer.notify_loop (s Demo.KeyboardListener)
              (Main.onKeyPressed 65)
              (Main.say Main.keyboard_heading st1)) as [st2 r2].
  destruct HK as (K1 & K2 & K3 & K4 & K5).
  { intros l Hl.
    cbn [world Main.say Main.print Main.class_of]. rewrite M3.
    apply Hty. exact Hl. }
  cbn [fst snd] in K1, K2, K3, K4, K5 |- *. subst r2.
  cbn [world calls Main.say Main.print Main.cout Main.class_of Main.destroyed]
    in K2, K3, K4, K5.
  repeat split.
  - rewrite K2, M2, <- !app_assoc. reflexivity.
  - rewrite K5, M5, <- app_assoc. reflexivity.
  - intros T. unfold Source.set_base.
    destruct (Demo.Capability_eq_dec T Demo.KeyboardListener) as [->|_];
      [reflexivity |].
    destruct (Demo.Capability_eq_dec T Demo.MouseListener) as [->|_];
      reflexivity.
Qed.

Lemma resolved_all_dead (Obj : Type) (alive : Obj -> bool)
      (m : list (weak_ptr Obj)) :
  (forall l, In (WRef l) m -> alive l = false) ->
  resolved alive m = [].
Proof.
  induction m as [|x m IH]; intros Hdead; [reflexivity |].
  cbn [resolved]. destruct x as [|l]; cbn [lock].
  - apply IH. intros l Hl. apply Hdead. right. exact Hl.
  - rewrite (Hdead l (or_introl eq_refl)).
    apply IH. intros l' Hl. apply Hdead. right. exact Hl.
Qed.

(** X20.  [MouseOnlySource::test] and [SmartMouseOnlySource::test] return
    and write the heading followed by one line per registered mouse
    listener, in attach order; the smart source writes a line only for the
    listeners that are still alive, so the heading alone once all of them
    are destroyed. *)
Theorem MouseOnlySource_test_output st :
  (forall s : RawSource.t Demo.Capability Main.Obj,
    let r := Main.MouseOnlySource_test st s in
    snd (snd r) = None /\
    Main.cout (world (fst (snd r))) =
      Main.cout (world st)
      ++ [Main.mouse_heading]
      ++ map (fun l => Main.onLeftMouseButton_text
                         (Main.class_of (world st) l) 95 105)
             (s Demo.MouseListener))
  /\
  (forall s : SmartSource.t Demo.Capability Main.Obj,
    let r := Main.SmartMouseOnlySource_test st s in
    snd (snd r) = None /\
    Main.cout (world (fst (snd r))) =
      Main.cout (world st)
      ++ [Main.mouse_heading]
      ++ map (fun l => Main.onLeftMouseButton_text
                         (Main.class_of (world st) l) 27 163)
             (resolved (Main.live (world st)) (s Demo.MouseListener)) /\
    ((forall l, In (WRef l) (s Demo.MouseListener) ->
                Main.live (world st) l = false) ->
     Main.cout (world (fst (snd r))) =
       Main.cout (world st)
       ++ [Main.mouse_heading])).
Proof.
  split; intros s; cbv zeta.
  - unfold Main.MouseOnlySource_test, RawSource.notify, RawContainer.notify.
    cbn [fst snd].
    destruct (mouse_loop_prints 95 105 (s Demo.MouseListener)
                (Main.say Main.mouse_heading st))
      as (M1 & M2 & _).
    split; [exact M1 |]. rewrite M2.
    cbn [world Main.say Main.print Main.cout Main.class_of].
    rewrite <- app_assoc. reflexivity.
  - unfold Main.SmartMouseOnlySource_test, SmartSource.notify,
      SmartContainer.notify.
    cbn [fst snd].
    destruct (smart_mouse_loop_prints 27 163 (s Demo.MouseListener)
                (Main.say Main.mouse_heading st))
      as (M1 & M2 & _).
    cbn [world Main.say Main.print Main.cout Main.class_of] in M2.
    change (Main.live (Main.print Main.mouse_heading (world st)))
      with (Main.live (world st)) in M2.
    split; [exact M1 |]. split.
    + rewrite M2, <- app_assoc. reflexivity.
    + intros Hdead. rewrite M2, <- app_assoc.
      assert (resolved (Main.live (world st)) (s Demo.MouseListener) = [])
        as ->.
      { apply resolved_all_dead. exact Hdead. }
      reflexivity.
Qed.

End MainProgram.

(** ** The further properties at the data of the demonstration program *)

(** A null handle on a mouse-and-keyboard source, for a mouse listener. *)
Lemma source_attach_null_asserts_demo :
  RawSource.attach Demo.Capability_eq_dec
    [Demo.MouseListener; Demo.KeyboardListener] [Demo.MouseListener] None
    (@RawSource.empty Demo.Capability Demo.Obj) = AssertionFailed /\
  SmartSource.attach Demo.Capability_eq_dec
    [Demo.MouseListener; Demo.KeyboardListener] [Demo.MouseListener] None
    (@SmartSource.empty Demo.Capability Demo.Obj) = AssertionFailed.
Proof.
  assert (exists c, In c [Demo.MouseListener] /\
                    In c [Demo.MouseListener; Demo.KeyboardListener]) as H.
  { exists Demo.MouseListener. simpl. auto. }
  split.
  - apply (proj1 (@source_attach_null_asserts Demo.Capability Demo.Obj
                    Demo.Capability_eq_dec _ _ H)).
  - apply (proj2 (@source_attach_null_asserts Demo.Capability Demo.Obj
                    Demo.Capability_eq_dec _ _ H)).
Defined.

(** [Listener<MouseListener, KeyboardListener>] against
    [Listener<KeyboardListener, MouseListener>]. *)
Lemma source_attach_ignores_capability_order_demo :
  exists s1 s2,
    RawSource.attach Demo.Capability_eq_dec
      [Demo.MouseListener; Demo.KeyboardListener]
      [Demo.MouseListener; Demo.KeyboardListener] (Some 2)
      (@RawSource.empty Demo.Capability Demo.Obj) = Ok s1 /\
    RawSource.attach Demo.Capability_eq_dec
      [Demo.MouseListener; Demo.KeyboardListener]
      [Demo.KeyboardListener; Demo.MouseListener] (Some 2)
      (@RawSource.empty Demo.Capability Demo.Obj) = Ok s2 /\
    forall T, s1 T = s2 T.
Proof.
  apply (proj1 (@source_attach_ignores_capability_order
                  Demo.Capability Demo.Obj Demo.Capability_eq_dec
                  [Demo.MouseListener; Demo.KeyboardListener]
                  [Demo.MouseListener; Demo.KeyboardListener]
                  [Demo.KeyboardListener; Demo.MouseListener] 2
                  (perm_swap _ _ _))).
Defined.

(** Detaching the mouse-only observer from a keyboard-only source. *)
Lemma source_detach_disjoint_is_noop_demo :
  RawSource.detach Demo.Capability_eq_dec [Demo.KeyboardListener]
    [Demo.MouseListener] (Some Demo.mouseOnlyObserver)
    (@RawSource.empty Demo.Capability Demo.Obj)
  = Ok (@RawSource.empty Demo.Capability Demo.Obj) /\
  SmartSource.detach Demo.Capability_eq_dec Nat.eq_dec Demo.live
    [Demo.KeyboardListener] [] [Demo.MouseListener]
    (Some Demo.mouseOnlyObserver)
    (@SmartSource.empty Demo.Capability Demo.Obj)
  = Ok (@SmartSource.empty Demo.Capability Demo.Obj).
Proof.
  assert (forall c, In c [Demo.MouseListener] ->
                    ~ In c [Demo.KeyboardListener]) as Hd.
  { intros c [<-|[]] [H|[]]. discriminate. }
  split.
  - apply (proj1 (@source_detach_disjoint_is_noop
                    Demo.Capability Demo.Obj Demo.World
                    Demo.Capability_eq_dec Nat.eq_dec Demo.live []
                    [Demo.KeyboardListener] [Demo.MouseListener]
                    (Some Demo.mouseOnlyObserver) Hd)).
  - apply (proj2 (@source_detach_disjoint_is_noop
                    Demo.Capability Demo.Obj Demo.World
                    Demo.Capability_eq_dec Nat.eq_dec Demo.live []
                    [Demo.KeyboardListener] [Demo.MouseListener]
                    (Some Demo.mouseOnlyObserver) Hd)).
Defined.

(** Attaching a keyboard-only listener class does not change what a mouse
    notification does. *)
Lemma other_capabilities_do_not_interfere_demo :
  exists s',
    RawSource.attach Demo.Capability_eq_dec
      [Demo.MouseListener; Demo.KeyboardListener] [Demo.KeyboardListener]
      (Some 2) (fun _ => [1]) = Ok s' /\
    s' Demo.MouseListener = [1] /\
    snd (RawSource.notify Demo.Capability_eq_dec Demo.MouseListener
           Demo.onLeftMouseButton Demo.start s') =
    snd (RawSource.notify Demo.Capability_eq_dec Demo.MouseListener
           Demo.onLeftMouseButton Demo.start (fun _ => [1])).
Proof.
  assert (~ In Demo.MouseListener [Demo.KeyboardListener]) as Hni.
  { intros [E|[]]. discriminate. }
  eexists. split; [reflexivity |].
  apply (proj1 (@other_capabilities_do_not_interfere
                  Demo.Capability Demo.Obj Demo.World Demo.Exn
                  Demo.Capability_eq_dec Nat.eq_dec Demo.live []
                  [Demo.MouseListener; Demo.KeyboardListener]
                  [Demo.KeyboardListener] Demo.MouseListener (Some 2)
                  Demo.onLeftMouseButton Demo.start Hni)
               (fun _ => [1]) _ (or_introl eq_refl)).
Defined.

(** The test of snippets.cpp, lines 47-54: a listener attached to and
    detached from a mouse source. *)
Lemma attach_then_detach_is_ill_formed_demo :
  (s1 <- RawSource.attach Demo.Capability_eq_dec [Demo.MouseListener]
           [Demo.MouseListener] (Some Demo.mouseOnlyObserver)
           (@RawSource.empty Demo.Capability Demo.Obj) ;;
   RawSource.detach Demo.Capability_eq_dec [Demo.MouseListener]
     [Demo.MouseListener] (Some Demo.mouseOnlyObserver) s1) = IllFormed /\
  (s1 <- SmartSource.attach Demo.Capability_eq_dec [Demo.MouseListener]
           [Demo.MouseListener] (Some Demo.mouseOnlyObserver)
           (@SmartSource.empty Demo.Capability Demo.Obj) ;;
   SmartSource.detach Demo.Capability_eq_dec Nat.eq_dec Demo.live
     [Demo.MouseListener] [] [Demo.MouseListener]
     (Some Demo.mouseOnlyObserver) s1) = IllFormed.
Proof.
  assert (exists c, In c [Demo.MouseListener] /\
                    In c [Demo.MouseListener]) as H.
  { exists Demo.MouseListener. simpl. auto. }
  split.
  - apply (proj1 (@attach_then_detach_is_ill_formed
                    Demo.Capability Demo.Obj Demo.World
                    Demo.Capability_eq_dec Nat.eq_dec Demo.live []
                    [Demo.MouseListener] [Demo.MouseListener]
                    Demo.mouseOnlyObserver H)
                 (@RawSource.empty Demo.Capability Demo.Obj)).
  - apply (proj2 (@attach_then_detach_is_ill_formed
                    Demo.Capability Demo.Obj Demo.World
                    Demo.Capability_eq_dec Nat.eq_dec Demo.live []
                    [Demo.MouseListener] [Demo.MouseListener]
                    Demo.mouseOnlyObserver H)
                 (@SmartSource.empty Demo.Capability Demo.Obj)).
Defined.

(** A [shared_ptr<MouseOnlyObserver>] and a
    [shared_ptr<Listener<MouseListener>>] to the same observer, on a smart
    mouse-and-keyboard source that holds observer 2 as a mouse listener. *)
Lemma convenience_overloads_agree_demo :
  Source.ListenerType Demo.MouseOnlyObserver =
    Source.Listener [Demo.MouseListener] /\
  SmartSource.attach_shared Demo.Capability_eq_dec
    [Demo.MouseListener; Demo.KeyboardListener]
    {| Source.element_type := Demo.MouseOnlyObserver;
       Source.get := Some Demo.mouseOnlyObserver |}
    (fun c => match c with
              | Demo.MouseListener => [WRef 2]
              | Demo.KeyboardListener => []
              end) =
  SmartSource.attach_shared Demo.Capability_eq_dec
    [Demo.MouseListener; Demo.KeyboardListener]
    {| Source.element_type := Source.Listener [Demo.MouseListener];
       Source.get := Some Demo.mouseOnlyObserver |}
    (fun c => match c with
              | Demo.MouseListener => [WRef 2]
              | Demo.KeyboardListener => []
              end) /\
  (exists s',
     SmartSource.attach_shared Demo.Capability_eq_dec
       [Demo.MouseListener; Demo.KeyboardListener]
       {| Source.element_type := Demo.MouseOnlyObserver;
          Source.get := Some Demo.mouseOnlyObserver |}
       (fun c => match c with
                 | Demo.MouseListener => [WRef 2]
                 | Demo.KeyboardListener => []
                 end) = Ok s' /\
     s' Demo.MouseListener = [WRef 2; WRef Demo.mouseOnlyObserver] /\
     s' Demo.KeyboardListener = []) /\
  SmartSource.detach_shared Demo.Capability_eq_dec Nat.eq_dec Demo.live
    [Demo.MouseListener; Demo.KeyboardListener] []
    {| Source.element_type := Demo.MouseOnlyObserver;
       Source.get := Some Demo.mouseOnlyObserver |}
    (fun c => match c with
              | Demo.MouseListener => [WRef 2]
              | Demo.KeyboardListener => []
              end) = IllFormed.
Proof.
  pose proof (@convenience_overloads_agree
                Demo.Capability Demo.Obj Demo.World
                Demo.Capability_eq_dec Nat.eq_dec Demo.live []
                [Demo.MouseListener; Demo.KeyboardListener]
                Demo.MouseOnlyObserver [Demo.MouseListener]
                (Some Demo.mouseOnlyObserver)
                (fun c => match c with
                          | Demo.MouseListener => [WRef 2]
                          | Demo.KeyboardListener => []
                          end)
                eq_refl) as (A & B & _ & _ & _ & D).
  split; [reflexivity |]. split; [exact A |]. split.
  - destruct (B Demo.mouseOnlyObserver eq_refl) as (s' & E & P).
    exists s'. split; [exact E |].
    split; [exact (P Demo.MouseListener) | exact (P Demo.KeyboardListener)].
  - apply D. exists Demo.MouseListener. simpl. auto.
Defined.

(** Detaching the mouse-only observer from a mouse source, as
    snippets.cpp does in line 53. *)
Lemma source_detach_shared_is_ill_formed_demo :
  RawSource.detach Demo.Capability_eq_dec [Demo.MouseListener]
    [Demo.MouseListener] (Some Demo.mouseOnlyObserver)
    (fun _ => [Demo.mouseOnlyObserver]) = IllFormed /\
  SmartSource.detach Demo.Capability_eq_dec Nat.eq_dec Demo.live
    [Demo.MouseListener] [] [Demo.MouseListener]
    (Some Demo.mouseOnlyObserver)
    (fun _ => [WRef Demo.mouseOnlyObserver]) = IllFormed.
Proof.
  assert (exists c, In c [Demo.MouseListener] /\
                    In c [Demo.MouseListener]) as H.
  { exists Demo.MouseListener. simpl. auto. }
  split.
  - apply (proj1 (@source_detach_shared_is_ill_formed
                    Demo.Capability Demo.Obj Demo.World
                    Demo.Capability_eq_dec Nat.eq_dec Demo.live []
                    [Demo.MouseListener] [Demo.MouseListener]
                    (Some Demo.mouseOnlyObserver) H)).
  - apply (proj2 (@source_detach_shared_is_ill_formed
                    Demo.Capability Demo.Obj Demo.World
                    Demo.Capability_eq_dec Nat.eq_dec Demo.live []
                    [Demo.MouseListener] [Demo.MouseListener]
                    (Some Demo.mouseOnlyObserver) H)).
Defined.

(** A callback raising 13 in observer 2, on the entries 1, 2, 3. *)
Lemma notify_error_comes_from_one_listener_demo :
  exists pre l post st1,
    [1; 2; 3] = pre ++ l :: post /\
    RawContainer.notify_loop pre (Demo.raising_in 2 13) Demo.start
      = (st1, None) /\
    snd (RawContainer.notify (Demo.raising_in 2 13) Demo.start [1; 2; 3])
      = invoke (Demo.raising_in 2 13) l st1 /\
    calls (fst (snd (RawContainer.notify (Demo.raising_in 2 13) Demo.start
                       [1; 2; 3]))) = calls Demo.start ++ pre ++ [l].
Proof.
  apply (proj1 (@notify_error_comes_from_one_listener
                  Demo.Obj Demo.World Demo.Exn
                  (Demo.raising_in 2 13) Demo.start 13) [1; 2; 3]).
  reflexivity.
Defined.

(** Observer 3 attached behind observers 1 and 2. *)
Lemma notify_after_attach_extends_notify_demo :
  snd (RawContainer.notify Demo.onLeftMouseButton Demo.start [1; 2; 3]) =
  match snd (RawContainer.notify Demo.onLeftMouseButton Demo.start [1; 2])
  with
  | (st', None) => invoke Demo.onLeftMouseButton 3 st'
  | (st', Some e) => (st', Some e)
  end.
Proof.
  apply (proj1 (@notify_after_attach_extends_notify
                  Demo.Obj Demo.World Demo.Exn
                  Demo.onLeftMouseButton Demo.start 3) [1; 2] [1; 2; 3]).
  reflexivity.
Defined.

(** The callback of observer 1 destroys observer 2, which is registered
    behind it. *)
Lemma smart_notify_skips_listener_destroyed_midway_demo :
  exists entered,
    calls (fst (snd (SmartContainer.notify (Exn:=Demo.Exn) Demo.live
                       (fun l w => (if Nat.eqb l 1 then 2 :: w else w, None))
                       Demo.start
                       ([WRef 1] ++ [WRef 2; WRef 3])))) =
      calls (Exec (Obj:=Demo.Obj) (World:=Demo.World) [2] [1]) ++ entered /\
    ~ In 2 entered.
Proof.
  apply (@smart_notify_skips_listener_destroyed_midway
           Demo.Obj Demo.World Demo.Exn Demo.live
           (fun l w => (if Nat.eqb l 1 then 2 :: w else w, None))
           2 [WRef 1] [WRef 2; WRef 3] Demo.start (Exec [2] [1])).
  - reflexivity.
  - reflexivity.
  - intros o' w H. cbn [fst].
    destruct (Nat.eqb o' 1); [reflexivity | exact H].
Defined.

(** Observers 1 (mouse only), 2 (mouse and keyboard) and 1 again attached
    to a mouse-and-keyboard source. *)
Lemma attach_keeps_containers_typed_demo :
  exists s,
    run_calls
      (fun o => RawSource.attach Demo.Capability_eq_dec
                  [Demo.MouseListener; Demo.KeyboardListener]
                  (if Nat.eqb o 2
                   then [Demo.MouseListener; Demo.KeyboardListener]
                   else [Demo.MouseListener]) (Some o))
      [1; 2; 1] (@RawSource.empty Demo.Capability Demo.Obj) = Ok s /\
    forall c o,
      In o (s c) ->
      In c (if Nat.eqb o 2
            then [Demo.MouseListener; Demo.KeyboardListener]
            else [Demo.MouseListener]) /\
      In c [Demo.MouseListener; Demo.KeyboardListener].
Proof.
  apply (proj1 (@attach_keeps_containers_typed
                  Demo.Capability Demo.Obj Demo.Capability_eq_dec
                  [Demo.MouseListener; Demo.KeyboardListener]
                  (fun o => if Nat.eqb o 2
                            then [Demo.MouseListener; Demo.KeyboardListener]
                            else [Demo.MouseListener])
                  [1; 2; 1])
               (@RawSource.empty Demo.Capability Demo.Obj)).
  intros c o H. destruct H.
Defined.

Section MainProgramDemo.
Import ZArith.
Local Open Scope Z_scope.

(** The first block of [main], lines 75-88: both observers attached to a
    mouse-and-keyboard source, then [src.test()]. *)
Lemma MouseAndKeyboardSource_test_output_demo :
  exists s,
    (s1 <- Main.raw_attach [Demo.MouseListener; Demo.KeyboardListener]
             (world Main.start) Main.mouseOnlyObserver
             (@RawSource.empty Demo.Capability Main.Obj) ;;
     Main.raw_attach [Demo.MouseListener; Demo.KeyboardListener]
       (world Main.start) Main.mouseAndKeyboardObserver s1) = Ok s /\
    snd (snd (Main.MouseAndKeyboardSource_test Main.start s)) = None /\
    Main.cout (world (fst (snd (Main.MouseAndKeyboardSource_test
                                  Main.start s)))) =
      [Main.mouse_heading;
       Main.MouseOnlyObserver_onLeftMouseButton 25 48;
       Main.MouseAndKeyboardObserver_onLeftMouseButton 25 48;
       Main.keyboard_heading;
       Main.MouseAndKeyboardObserver_onKeyPressed 65].
Proof.
  eexists. split; [reflexivity |].
  match goal with
  | |- context [Main.MouseAndKeyboardSource_test Main.start ?s] =>
      destruct (@MouseAndKeyboardSource_test_output Main.start s)
        as (A & B & _)
  end.
  - intros l [<-|[]]. reflexivity.
  - split; [exact A | exact B].
Defined.

(** The third block of [main], lines 107-119: the observer attached to a
    smart mouse source, and [src.test()] after [observer.reset()]. *)
Lemma MouseOnlySource_test_output_demo :
  exists s,
    Main.smart_attach [Demo.MouseListener] (world Main.start) Main.observer
      (@SmartSource.empty Demo.Capability Main.Obj) = Ok s /\
    Main.cout (world (fst (snd (Main.SmartMouseOnlySource_test
        (Exec (Main.destroy Main.observer (world Main.start)) []) s)))) =
      [Main.mouse_heading].
Proof.
  eexists. split; [reflexivity |].
  match goal with
  | |- context [Main.SmartMouseOnlySource_test ?st ?s] =>
      destruct (proj2 (@MouseOnlySource_test_output st) s) as (_ & _ & C)
  end.
  apply C. intros l [E|[]]. injection E as <-. reflexivity.
Defined.

End MainProgramDemo.
